(** * ACCU-RL: the adaptive climate control Q-learning simulator

    A shallow embedding of [ERL_Simulation.py].  Python floats (and the
    float32 cells of the NumPy Q-table) are read as real numbers, so every
    statement below is about the exact arithmetic the code approximates;
    Python ints (states, actions, the [-1] "no previous step" marker) are
    [Z].  Calls to [random] become explicit arguments, console output is
    dropped, and an [IndexError] is [None]. *)

From Stdlib Require Import Reals Lra ZArith Lia String.
From stdpp Require Import base option list strings.

#[local] Open Scope Z_scope.
#[local] Open Scope R_scope.

(** ** 1. Configuration and hyperparameters *)

Definition ALPHA : R := 0.05.
Definition GAMMA : R := 0.85.
Definition EPSILON : R := 0.2.
Definition CRUCIAL_TD_THRESHOLD : R := 1.0.
Definition EPISODE_COUNT : nat := 500.

Definition ACTIVE_PENALTY : R := -0.20.
Definition IDLE_BONUS : R := 0.05.

Definition LUX_BINS : Z := 3.
Definition TEMP_BINS : Z := 3.
Definition STATE_SPACE_SIZE : Z := LUX_BINS * TEMP_BINS.

Definition LUX_BIN_LOW_MAX : R := 100.0.
Definition LUX_BIN_HIGH_MIN : R := 500.0.
Definition TEMP_BIN_COLD_MAX : R := 18.0.
Definition TEMP_BIN_HOT_MIN : R := 24.0.

Definition TARGET_LUX : R := 300.0.
Definition TARGET_TEMP : R := 21.0.
Definition REWARD_MAX_DISTANCE : R := 10.0.

Definition ACTION_SPACE_SIZE : Z := 5.
Definition A_LIGHT_UP : Z := 0.
Definition A_LIGHT_DOWN : Z := 1.
Definition A_TEMP_UP : Z := 2.
Definition A_TEMP_DOWN : Z := 3.
Definition A_DO_NOTHING : Z := 4.

(** The value [run_simulation] gives [s_prev] and [a_prev] before the
    first iteration. *)
Definition NO_PREV : Z := -1.

(** ** 2. RL utility functions *)

Definition lux_bin (lux : R) : Z :=
  if Rle_dec lux LUX_BIN_LOW_MAX then 0
  else if Rge_dec lux LUX_BIN_HIGH_MIN then 2
  else 1.

Definition temp_bin (temp : R) : Z :=
  if Rle_dec temp TEMP_BIN_COLD_MAX then 0
  else if Rge_dec temp TEMP_BIN_HOT_MIN then 2
  else 1.

Definition get_state (lux temp : R) : Z :=
  (lux_bin lux * TEMP_BINS + temp_bin temp)%Z.

(** Stage 1 of [calculate_reward]: [1.0 - distance / REWARD_MAX_DISTANCE]. *)
Definition R_comfort (lux temp : R) : R :=
  let lux_error := Rabs (lux - TARGET_LUX) / 100.0 in
  let temp_error := Rabs (temp - TARGET_TEMP) in
  let distance := sqrt (lux_error ^ 2 + temp_error ^ 2) in
  1.0 - distance / REWARD_MAX_DISTANCE.

(** Stage 2: the value of [energy_cost] when it is added to [reward]. *)
Definition R_energy_cost (a_prev : Z) : R :=
  if decide (a_prev ≠ (-1)%Z) then
    if decide (a_prev ≠ A_DO_NOTHING) then ACTIVE_PENALTY else IDLE_BONUS
  else 0.0.

(** The conditions of the four [elif] branches after the state-4 test. *)
Definition low_lux_light_down (current_state a_prev : Z) : bool :=
  bool_decide (current_state < 3)%Z && bool_decide (a_prev = A_LIGHT_DOWN).
Definition high_lux_light_up (current_state a_prev : Z) : bool :=
  bool_decide (current_state > 5)%Z && bool_decide (a_prev = A_LIGHT_UP).
Definition cold_temp_down (current_state a_prev : Z) : bool :=
  bool_decide (current_state ∈ [0; 3; 6]%Z) && bool_decide (a_prev = A_TEMP_DOWN).
Definition hot_temp_up (current_state a_prev : Z) : bool :=
  bool_decide (current_state ∈ [2; 5; 8]%Z) && bool_decide (a_prev = A_TEMP_UP).

(** Stage 3: the [if current_state == 4 ... elif ...] chain, as the new
    value of [reward]. *)
Definition R_shaping (current_state a_prev : Z) (reward : R) : R :=
  if decide (current_state = 4%Z) then
    if decide (a_prev ≠ A_DO_NOTHING) then reward - 3.0 else reward + 5.0
  else if low_lux_light_down current_state a_prev then reward - 0.3
  else if high_lux_light_up current_state a_prev then reward - 0.3
  else if cold_temp_down current_state a_prev then reward - 0.3
  else if hot_temp_up current_state a_prev then reward - 0.3
  else reward.

(** [reward] as it stands just before the final clamp. *)
Definition unclamped_reward (lux temp : R) (a_prev : Z) : R :=
  let reward := R_comfort lux temp in
  let reward := reward + R_energy_cost a_prev in
  let current_state := get_state lux temp in
  R_shaping current_state a_prev reward.

Definition calculate_reward (lux temp : R) (a_prev : Z) : R :=
  let reward := unclamped_reward lux temp a_prev in
  Rmax (-3.0) (Rmin 6.0 reward).

(** *** NumPy array access

    A 2-D array is a list of rows.  An index [i] into an axis of length [n]
    is accepted when [-n <= i < n] (negative indices count from the end);
    anything else raises [IndexError]. *)

Definition np_index (n : nat) (i : Z) : option nat :=
  if decide (0 <= i < Z.of_nat n)%Z then Some (Z.to_nat i)
  else if decide (- Z.of_nat n <= i < 0)%Z then Some (Z.to_nat (i + Z.of_nat n))
  else None.

(** [q[s, :]] *)
Definition Q_row (q : list (list R)) (s : Z) : option (list R) :=
  i ← np_index (length q) s; q !! i.

(** [q[s, a]] *)
Definition Q_get (q : list (list R)) (s a : Z) : option R :=
  row ← Q_row q s; j ← np_index (length row) a; row !! j.

(** [q[s, a] = v] *)
Definition Q_set (q : list (list R)) (s a : Z) (v : R) : option (list (list R)) :=
  i ← np_index (length q) s;
  row ← q !! i;
  j ← np_index (length row) a;
  Some (<[i := <[j := v]> row]> q).

(** [np.argmax]: the first position holding the largest value. *)
Fixpoint argmax_from (best_i : nat) (best : R) (i : nat) (l : list R) : nat :=
  match l with
  | [] => best_i
  | x :: l' =>
      if Rlt_dec best x then argmax_from i x (S i) l'
      else argmax_from best_i best (S i) l'
  end.

Definition np_argmax (l : list R) : option Z :=
  match l with
  | [] => None
  | x :: l' => Some (Z.of_nat (argmax_from 0 x 1 l'))
  end.

(** [np.max] *)
Definition np_max (l : list R) : option R :=
  match l with
  | [] => None
  | x :: l' => Some (foldl Rmax x l')
  end.

(** [np.zeros((rows, cols))] *)
Definition np_zeros (rows cols : Z) : list (list R) :=
  replicate (Z.to_nat rows) (replicate (Z.to_nat cols) 0.0).

(** [choose_action].  [coin] is the value of [random.random()] and [pick]
    the value of [random.choice(range(ACTION_SPACE_SIZE))]; the module
    global [EPSILON] is the argument [epsilon]. *)
Definition choose_action (epsilon coin : R) (pick : Z)
    (q_table : list (list R)) (s : Z) : option Z :=
  if Rlt_dec coin epsilon then Some pick
  else row ← Q_row q_table s; np_argmax row.

(** ** 3. Simulated environment *)

Record Environment : Type := mkEnvironment {
  lux : R;
  temp : R;
  outside_temp : R;
  TEMP_DRIFT_RATE : R;
  LUX_DRIFT_RATE : R;
  NATURAL_LUX_BASE : R
}.

(** [Environment.__init__] *)
Definition Environment_init (initial_lux initial_temp outside : R) : Environment :=
  {| lux := initial_lux; temp := initial_temp; outside_temp := outside;
     TEMP_DRIFT_RATE := 0.05; LUX_DRIFT_RATE := 5.0; NATURAL_LUX_BASE := 50.0 |}.

(** The three [random.uniform] values one call of [step] may use:
    [uniform(0.005, 0.05)], [uniform(0.8, 1.2)] and [uniform(0.9, 1.1)]. *)
Record step_draws : Type := mkStepDraws {
  u_noise : R;
  u_light : R;
  u_drift : R
}.

(** [Environment.step]; the pair it returns is the new [lux] and [temp]. *)
Definition step (self : Environment) (action : Z) (d : step_draws) : Environment :=
  let noise := u_noise d in
  let '(lux1, temp1) :=
    if decide (action = A_LIGHT_UP) then (lux self + 100 * u_light d, temp self)
    else if decide (action = A_LIGHT_DOWN) then (lux self - 100 * u_light d, temp self)
    else if decide (action = A_TEMP_UP) then (lux self, temp self + (1.0 + noise))
    else if decide (action = A_TEMP_DOWN) then (lux self, temp self - (1.0 + noise))
    else (lux self, temp self) in
  let temp_difference := outside_temp self - temp1 in
  let temp2 := temp1 + temp_difference * TEMP_DRIFT_RATE self in
  let lux2 := lux1 - LUX_DRIFT_RATE self * u_drift d in
  let lux3 := Rmax lux2 (NATURAL_LUX_BASE self) in
  {| lux := lux3; temp := temp2; outside_temp := outside_temp self;
     TEMP_DRIFT_RATE := TEMP_DRIFT_RATE self;
     LUX_DRIFT_RATE := LUX_DRIFT_RATE self;
     NATURAL_LUX_BASE := NATURAL_LUX_BASE self |}.

(** ** 4. Q-learning trainer *)

Record QLearningTrainer : Type := mkTrainer {
  Q_table : list (list R);
  crucial_updates_count : Z;
  policy_changes_count : Z
}.

(** [QLearningTrainer.__init__] *)
Definition QLearningTrainer_init : option QLearningTrainer :=
  let S4_INDEX := 4%Z in
  let IDLE_INDEX := A_DO_NOTHING in
  q ← Q_set (np_zeros STATE_SPACE_SIZE ACTION_SPACE_SIZE) S4_INDEX IDLE_INDEX 10.0;
  Some {| Q_table := q; crucial_updates_count := 0; policy_changes_count := 0 |}.

(** [QLearningTrainer.max_q] *)
Definition max_q (self : QLearningTrainer) (s_new : Z) : option R :=
  row ← Q_row (Q_table self) s_new; np_max row.

(** [QLearningTrainer.update_q_table] *)
Definition update_q_table (self : QLearningTrainer) (s_prev a_prev : Z) (r : R)
    (s_new : Z) : option QLearningTrainer :=
  if decide (s_prev < 0 ∨ a_prev < 0)%Z then Some self
  else
    row_prev ← Q_row (Q_table self) s_prev;
    old_best_action ← np_argmax row_prev;
    old_q ← Q_get (Q_table self) s_prev a_prev;
    max_q_new ← max_q self s_new;
    let target_q := r + GAMMA * max_q_new in
    let td_error := target_q - old_q in
    let new_q := old_q + ALPHA * td_error in
    q' ← Q_set (Q_table self) s_prev a_prev new_q;
    row_post ← Q_row q' s_prev;
    new_best_action ← np_argmax row_post;
    let crucial :=
      if Rgt_dec (Rabs td_error) CRUCIAL_TD_THRESHOLD
      then (crucial_updates_count self + 1)%Z else crucial_updates_count self in
    let changes :=
      if decide (old_best_action ≠ new_best_action)
      then (policy_changes_count self + 1)%Z else policy_changes_count self in
    Some {| Q_table := q'; crucial_updates_count := crucial;
            policy_changes_count := changes |}.

(** ** 5. Simulation loop *)

(** Every random value one loop iteration may consume. *)
Record episode_draws : Type := mkEpisodeDraws {
  coin : R;
  pick : Z;
  env_draws : step_draws
}.

(** The variables that live across iterations of the loop of
    [run_simulation]. *)
Record loop_state : Type := mkLoop {
  trainer : QLearningTrainer;
  env : Environment;
  s_prev : Z;
  a_prev : Z
}.

(** One pass through the body of the [for episode in range(episodes)] loop. *)
Definition episode (epsilon : R) (st : loop_state) (d : episode_draws)
    : option loop_state :=
  let lux := lux (env st) in
  let temp := temp (env st) in
  let s_new := get_state lux temp in
  let r := calculate_reward lux temp (a_prev st) in
  trainer' ← update_q_table (trainer st) (s_prev st) (a_prev st) r s_new;
  a_new ← choose_action epsilon (coin d) (pick d) (Q_table trainer') s_new;
  let env' := step (env st) a_new (env_draws d) in
  Some {| trainer := trainer'; env := env'; s_prev := s_new; a_prev := a_new |}.

Fixpoint episodes_from (epsilon : R) (st : loop_state) (draws : list episode_draws)
    : option loop_state :=
  match draws with
  | [] => Some st
  | d :: draws' => st' ← episode epsilon st d; episodes_from epsilon st' draws'
  end.

(** The state [run_simulation] sets up before its loop. *)
Definition simulation_start : option loop_state :=
  trainer ← QLearningTrainer_init;
  Some {| trainer := trainer;
          env := Environment_init 80.0 16.0 20.0;
          s_prev := -1; a_prev := -1 |}.

(** [run_simulation(episodes)] with [episodes = length draws], one entry of
    [draws] per iteration. *)
Definition run_simulation (epsilon : R) (draws : list episode_draws)
    : option (list (list R) * Z * Z) :=
  st0 ← simulation_start;
  st ← episodes_from epsilon st0 draws;
  Some (Q_table (trainer st), crucial_updates_count (trainer st),
        policy_changes_count (trainer st)).

(** ** Vocabulary of the properties *)

(** How many of the four directional-mismatch conditions hold. *)
Definition mismatch_count (current_state a_prev : Z) : nat :=
  (Nat.b2n (low_lux_light_down current_state a_prev)
   + Nat.b2n (high_lux_light_up current_state a_prev)
   + Nat.b2n (cold_temp_down current_state a_prev)
   + Nat.b2n (hot_temp_up current_state a_prev))%nat.

(** The Q-table has [STATE_SPACE_SIZE] rows of [ACTION_SPACE_SIZE] cells. *)
Definition Q_shape (q : list (list R)) : Prop :=
  length q = Z.to_nat STATE_SPACE_SIZE ∧
  Forall (λ row, length row = Z.to_nat ACTION_SPACE_SIZE) q.

(** [m] is the largest value of row [s]: it occurs there and bounds it. *)
Definition is_row_max (q : list (list R)) (s : Z) (m : R) : Prop :=
  (∃ a, (0 <= a < ACTION_SPACE_SIZE)%Z ∧ Q_get q s a = Some m) ∧
  (∀ a v, Q_get q s a = Some v → v <= m).

(** [best_action(state)]: the greedy action of a row. *)
Definition best_action (q : list (list R)) (s : Z) : option Z :=
  row ← Q_row q s; np_argmax row.

(** A run of [Environment.step] calls, one [(action, draws)] pair per call. *)
Definition steps_from (e : Environment) (calls : list (Z * step_draws)) : Environment :=
  foldl (λ e c, step e c.1 c.2) e calls.

(** The ranges of the random values: [random.random()] is in [0, 1), the
    choice is an action, and each [uniform(a, b)] lies between [a] and
    [b]. *)
Definition draws_in_range (d : episode_draws) : Prop :=
  0 <= coin d < 1 ∧
  (0 <= pick d < ACTION_SPACE_SIZE)%Z ∧
  0.005 <= u_noise (env_draws d) <= 0.05 ∧
  0.8 <= u_light (env_draws d) <= 1.2 ∧
  0.9 <= u_drift (env_draws d) <= 1.1.

(** Every cell of the table lies in [-20, 40]. *)
Definition Q_bounded (q : list (list R)) : Prop :=
  ∀ s a, (0 <= s < 9)%Z → (0 <= a < 5)%Z →
         ∃ v, Q_get q s a = Some v ∧ -20 <= v <= 40.

(** What the greedy run keeps true of the table: row 4 is zero except for
    a positive IDLE cell, and the IDLE cell of row 1 is not negative. *)
Definition table_inv (q : list (list R)) : Prop :=
  Q_shape q ∧ Q_bounded q ∧
  (∀ a, (0 <= a < 4)%Z → Q_get q 4 a = Some 0) ∧
  (∃ x, Q_get q 4 A_DO_NOTHING = Some x ∧ 0 < x) ∧
  (∃ y, Q_get q 1 A_DO_NOTHING = Some y ∧ 0 <= y).

(** The environment of [run_simulation]: its constants. *)
Definition env_inv (e : Environment) : Prop :=
  outside_temp e = 20.0 ∧ TEMP_DRIFT_RATE e = 0.05 ∧
  LUX_DRIFT_RATE e = 5.0 ∧ NATURAL_LUX_BASE e = 50.0.

(** What the previous state and action say about the current reading:
    state 4 is always left by IDLE, and IDLE in state 4 or 1 leaves temp in
    the middle bin and lux between the floor and the bin it came from. *)
Definition transition_inv (s_prev a_prev : Z) (e : Environment) : Prop :=
  (s_prev = NO_PREV ∧ a_prev = NO_PREV) ∨
  ((0 <= s_prev < 9)%Z ∧ (0 <= a_prev < 5)%Z ∧
   (s_prev = 4%Z → a_prev = A_DO_NOTHING ∧
                   50.0 <= lux e < 500.0 ∧ 18.0 < temp e < 24.0) ∧
   (s_prev = 1%Z → a_prev = A_DO_NOTHING →
                   50.0 <= lux e <= 100.0 ∧ 18.0 < temp e < 24.0)).

Definition loop_inv (st : loop_state) : Prop :=
  table_inv (Q_table (trainer st)) ∧ env_inv (env st) ∧
  transition_inv (s_prev st) (a_prev st) (env st).

(** ** 6. Verdict and report

    The tests and tables of [run_simulation] and [generate_report] that do
    not format numbers. *)

Definition ACTION_NAMES : list string :=
  ["LIGHT+"; "LIGHT-"; "TEMP+"; "TEMP-"; "IDLE"]%string.

(** The test at the end of [run_simulation] that chooses between the
    SUCCESS and the FAILURE banner. *)
Definition banner_success (q : list (list R)) : option bool :=
  let S4_INDEX := 4%Z in
  best_action_s4 ← best_action q S4_INDEX;
  Some (bool_decide (best_action_s4 = A_DO_NOTHING)).

(** [best_actions] of [generate_report]: the name of the greedy action of
    each state, in order of state. *)
Definition report_best_actions (q_table : list (list R)) : option (list string) :=
  mapM (λ s, best_action_index ← best_action q_table s;
             ACTION_NAMES !! Z.to_nat best_action_index)
       (seqZ 0 STATE_SPACE_SIZE).

(** The test of [generate_report] that chooses between the SUCCESS and the
    FAILURE paragraph. *)
Definition report_success (q_table : list (list R)) : option bool :=
  best_actions ← report_best_actions q_table;
  name4 ← best_actions !! 4%nat;
  idle ← ACTION_NAMES !! Z.to_nat A_DO_NOTHING;
  Some (bool_decide (name4 = idle)).

(** [state_descriptions] of [generate_report]. *)
Definition state_descriptions : list (Z * string) :=
  [ (0%Z, "S0: LOW LUX, COLD Temp"); (1%Z, "S1: LOW LUX, COMFORT Temp");
    (2%Z, "S2: LOW LUX, HOT Temp"); (3%Z, "S3: MEDIUM LUX, COLD Temp");
    (4%Z, "S4: MEDIUM LUX, COMFORT Temp (Target Zone)");
    (5%Z, "S5: MEDIUM LUX, HOT Temp"); (6%Z, "S6: HIGH LUX, COLD Temp");
    (7%Z, "S7: HIGH LUX, COMFORT Temp"); (8%Z, "S8: HIGH LUX, HOT Temp") ]%string.

(** Python's [sub in s] on strings. *)
Definition str_in (sub s : string) : bool :=
  match index 0 sub s with Some _ => true | None => false end.

(** The "policy interpretation logic" of [generate_report]. *)
Definition implication (s : Z) (desc : string) : string :=
  (if decide (s = 4%Z) then
     "Energy Conservation Policy: Must be IDLE for optimal result."
   else if str_in "LOW LUX" desc && str_in "Temp" desc then
     "Requires LIGHT+ to meet Lux target."
   else if str_in "HIGH LUX" desc && str_in "Temp" desc then
     "Requires LIGHT- to meet Lux target."
   else if str_in "COLD" desc then "Requires TEMP+ to reach Comfort Temp."
   else if str_in "HOT" desc then "Requires TEMP-"
   else "")%string.

(** ** More vocabulary *)

(** The physics constants [Environment.__init__] sets. *)
Definition physics (e : Environment) : Prop :=
  TEMP_DRIFT_RATE e = 0.05 ∧ LUX_DRIFT_RATE e = 5.0 ∧ NATURAL_LUX_BASE e = 50.0.

(** The call is not a heating or cooling action. *)
Definition not_temp_action (c : Z * step_draws) : Prop :=
  c.1 ≠ A_TEMP_UP ∧ c.1 ≠ A_TEMP_DOWN.

(** What every run keeps true after [k] iterations, whatever the
    exploration rate: a well-shaped, bounded table, counters that have
    grown at most once per iteration after the first, and a previous
    state and action that are indices once an iteration has run. *)
Definition safe_inv (k : nat) (st : loop_state) : Prop :=
  Q_shape (Q_table (trainer st)) ∧ Q_bounded (Q_table (trainer st)) ∧
  (0 <= crucial_updates_count (trainer st) <= Z.of_nat (pred k))%Z ∧
  (0 <= policy_changes_count (trainer st) <= Z.of_nat (pred k))%Z ∧
  ((k = 0%nat ∧ s_prev st = NO_PREV ∧ a_prev st = NO_PREV) ∨
   ((1 <= k)%nat ∧ (0 <= s_prev st < 9)%Z ∧ (0 <= a_prev st < 5)%Z)).

(** * Properties *)

(** Case analysis through a clamp [max(lo, min(hi, x))]. *)
Ltac clamp_cases := unfold Rmax, Rmin; repeat destruct (Rle_dec _ _); lra.

(** Settles, one at a time, each comparison of reals in the goal that
    linear arithmetic decides. *)
Ltac settle_cmp c := first [ destruct c; [| exfalso; lra] | destruct c; [exfalso; lra |] ].
Ltac real_cases :=
  unfold Rmax, Rmin, Rabs;
  repeat match goal with
         | |- context [Rlt_dec ?a ?b] => settle_cmp (Rlt_dec a b)
         | |- context [Rgt_dec ?a ?b] => settle_cmp (Rgt_dec a b)
         | |- context [Rle_dec ?a ?b] => settle_cmp (Rle_dec a b)
         | |- context [Rcase_abs ?a] => settle_cmp (Rcase_abs a)
         end.

(** ** State discretisation *)

Lemma lux_bin_cases (l : R) :
  lux_bin l = 0%Z ∧ l <= 100.0 ∨
  lux_bin l = 1%Z ∧ 100.0 < l < 500.0 ∨
  lux_bin l = 2%Z ∧ 500.0 <= l.
Proof.
  unfold lux_bin, LUX_BIN_LOW_MAX, LUX_BIN_HIGH_MIN.
  destruct (Rle_dec l 100.0); [left; split; [reflexivity | lra] |].
  destruct (Rge_dec l 500.0); [right; right | right; left];
    (split; [reflexivity | lra]).
Qed.

Lemma temp_bin_cases (t : R) :
  temp_bin t = 0%Z ∧ t <= 18.0 ∨
  temp_bin t = 1%Z ∧ 18.0 < t < 24.0 ∨
  temp_bin t = 2%Z ∧ 24.0 <= t.
Proof.
  unfold temp_bin, TEMP_BIN_COLD_MAX, TEMP_BIN_HOT_MIN.
  destruct (Rle_dec t 18.0); [left; split; [reflexivity | lra] |].
  destruct (Rge_dec t 24.0); [right; right | right; left];
    (split; [reflexivity | lra]).
Qed.

Lemma get_state_bins (l t : R) :
  get_state l t = (lux_bin l * 3 + temp_bin t)%Z.
Proof. reflexivity. Qed.

Lemma get_state_range (l t : R) : (0 <= get_state l t < 9)%Z.
Proof.
  rewrite get_state_bins.
  destruct (lux_bin_cases l) as [[-> _] | [[-> _] | [-> _]]];
    destruct (temp_bin_cases t) as [[-> _] | [[-> _] | [-> _]]]; lia.
Qed.

(** A reading is in state 4 exactly when both coordinates are strictly
    inside the middle bins. *)
Lemma get_state_4 (l t : R) :
  get_state l t = 4%Z ↔ (100.0 < l < 500.0) ∧ (18.0 < t < 24.0).
Proof.
  rewrite get_state_bins.
  destruct (lux_bin_cases l) as [[-> ?] | [[-> ?] | [-> ?]]];
    destruct (temp_bin_cases t) as [[-> ?] | [[-> ?] | [-> ?]]];
    split; intros; try lia; try lra; try (split; lra).
Qed.

(** A reading is in state 1 exactly when lux is in the low bin and temp in
    the middle one. *)
Lemma get_state_1 (l t : R) :
  get_state l t = 1%Z ↔ l <= 100.0 ∧ (18.0 < t < 24.0).
Proof.
  rewrite get_state_bins.
  destruct (lux_bin_cases l) as [[-> ?] | [[-> ?] | [-> ?]]];
    destruct (temp_bin_cases t) as [[-> ?] | [[-> ?] | [-> ?]]];
    split; intros; try lia; try lra; try (split; lra).
Qed.

(** The reading [run_simulation] starts from is in state 0. *)
Example get_state_initial : get_state 80.0 16.0 = 0%Z.
Proof.
  rewrite get_state_bins.
  destruct (lux_bin_cases 80.0) as [[-> _] | [[_ ?] | [_ ?]]]; try lra.
  destruct (temp_bin_cases 16.0) as [[-> _] | [[_ ?] | [_ ?]]]; try lra.
  reflexivity.
Qed.

(** C3: every reading has one state, [lux_bin * 3 + temp_bin] with both
    bins among 0, 1, 2 (low bin up to and including 100 / 18, high bin from
    500 / 24 on, middle bin strictly between), so the state is in [0, 9);
    the four thresholds themselves fall in the outer bins. *)
Theorem get_state_partition (l t : R) :
  (∃ lb tb : Z,
      (lb = 0%Z ∧ l <= 100.0 ∨ lb = 1%Z ∧ 100.0 < l < 500.0 ∨ lb = 2%Z ∧ 500.0 <= l) ∧
      (tb = 0%Z ∧ t <= 18.0 ∨ tb = 1%Z ∧ 18.0 < t < 24.0 ∨ tb = 2%Z ∧ 24.0 <= t) ∧
      get_state l t = (lb * 3 + tb)%Z) ∧
  (0 <= get_state l t < 9)%Z ∧
  get_state 100.0 t = (0 * 3 + temp_bin t)%Z ∧
  get_state 500.0 t = (2 * 3 + temp_bin t)%Z ∧
  get_state l 18.0 = (lux_bin l * 3 + 0)%Z ∧
  get_state l 24.0 = (lux_bin l * 3 + 2)%Z.
Proof.
  split; [| split; [apply get_state_range |]].
  - exists (lux_bin l), (temp_bin t).
    split; [apply lux_bin_cases | split; [apply temp_bin_cases | reflexivity]].
  - rewrite !get_state_bins.
    destruct (lux_bin_cases 100.0) as [[-> _] | [[_ ?] | [_ ?]]]; try lra.
    destruct (lux_bin_cases 500.0) as [[_ ?] | [[_ ?] | [-> _]]]; try lra.
    destruct (temp_bin_cases 18.0) as [[-> _] | [[_ ?] | [_ ?]]]; try lra.
    destruct (temp_bin_cases 24.0) as [[_ ?] | [[_ ?] | [-> _]]]; try lra.
    repeat split.
Qed.

(** ** Reward *)

Lemma clamp_range (x : R) : -3.0 <= Rmax (-3.0) (Rmin 6.0 x) <= 6.0.
Proof. clamp_cases. Qed.

Lemma clamp_inside (x : R) :
  -3.0 <= x <= 6.0 → Rmax (-3.0) (Rmin 6.0 x) = x.
Proof. intros ?. clamp_cases. Qed.

(** C2: whatever the reading and the previous action (the [-1] of the
    first iteration included), the reward is between -3.0 and 6.0. *)
Theorem calculate_reward_range (l t : R) (a : Z) :
  -3.0 <= calculate_reward l t a <= 6.0.
Proof. unfold calculate_reward. apply clamp_range. Qed.

Lemma sqrt_le_bound (x c : R) : 0 <= c → x <= c * c → sqrt x <= c.
Proof.
  intros Hc Hx.
  destruct (Rle_dec 0 x) as [Hx0 | Hx0].
  - rewrite <- (sqrt_square c Hc). apply sqrt_le_1_alt, Hx.
  - rewrite sqrt_neg_0 by lra. exact Hc.
Qed.

Lemma R_comfort_le_1 (l t : R) : R_comfort l t <= 1.0.
Proof.
  unfold R_comfort, REWARD_MAX_DISTANCE.
  pose proof (sqrt_pos ((Rabs (l - TARGET_LUX) / 100.0) ^ 2
                        + Rabs (t - TARGET_TEMP) ^ 2)).
  lra.
Qed.

(** The comfort term is at least [1 - c/10] when the reading is within
    scaled distance [c] of the target. *)
Lemma R_comfort_lower (l t c : R) :
  0 <= c →
  ((l - 300.0) / 100.0) ^ 2 + (t - 21.0) ^ 2 <= c * c →
  1.0 - c / 10.0 <= R_comfort l t.
Proof.
  intros Hc Hd. unfold R_comfort, REWARD_MAX_DISTANCE, TARGET_LUX, TARGET_TEMP.
  assert (Hs : sqrt ((Rabs (l - 300.0) / 100.0) ^ 2 + Rabs (t - 21.0) ^ 2) <= c).
  { apply sqrt_le_bound; [exact Hc |].
    replace ((Rabs (l - 300.0) / 100.0) ^ 2)
      with (Rabs (l - 300.0) ^ 2 / 10000) by (set (X := Rabs _); lra).
    rewrite !pow2_abs. lra. }
  lra.
Qed.

Lemma R_comfort_target : R_comfort 300.0 21.0 = 1.0.
Proof.
  pose proof (R_comfort_le_1 300.0 21.0).
  pose proof (R_comfort_lower 300.0 21.0 0).
  lra.
Qed.

(** C7: at the target reading (state 4) the reward after IDLE is 6.0 (the
    clamp cuts 6.05) and after LIGHT_UP it is -2.2, so the gap is at
    least 3.0. *)
Theorem s4_dominance :
  get_state 300.0 21.0 = 4%Z ∧
  calculate_reward 300.0 21.0 A_DO_NOTHING = 6.0 ∧
  calculate_reward 300.0 21.0 A_LIGHT_UP = -2.2 ∧
  calculate_reward 300.0 21.0 A_DO_NOTHING
    - calculate_reward 300.0 21.0 A_LIGHT_UP >= 3.0.
Proof.
  assert (H4 : get_state 300.0 21.0 = 4%Z) by (apply get_state_4; lra).
  assert (Hi : calculate_reward 300.0 21.0 A_DO_NOTHING = 6.0).
  { unfold calculate_reward, unclamped_reward. rewrite H4, R_comfort_target.
    unfold R_shaping, R_energy_cost, A_DO_NOTHING, IDLE_BONUS; simpl.
    clamp_cases. }
  assert (Hu : calculate_reward 300.0 21.0 A_LIGHT_UP = -2.2).
  { unfold calculate_reward, unclamped_reward. rewrite H4, R_comfort_target.
    unfold R_shaping, R_energy_cost, A_LIGHT_UP, ACTIVE_PENALTY; simpl.
    clamp_cases. }
  rewrite Hi, Hu. repeat split; try assumption; lra.
Qed.

(** No two of the four mismatch conditions hold together: each asks for a
    different previous action. *)
Lemma mismatch_count_le_1 (s a : Z) : (mismatch_count s a <= 1)%nat.
Proof.
  unfold mismatch_count, low_lux_light_down, high_lux_light_up,
    cold_temp_down, hot_temp_up,
    A_LIGHT_DOWN, A_LIGHT_UP, A_TEMP_DOWN, A_TEMP_UP.
  repeat case_bool_decide; subst; simpl; try lia; discriminate.
Qed.

Lemma R_shaping_outside_4 (s a : Z) (reward : R) :
  s ≠ 4%Z → R_shaping s a reward = reward - 0.3 * INR (mismatch_count s a).
Proof.
  intros Hs. pose proof (mismatch_count_le_1 s a) as Hc. revert Hc.
  unfold R_shaping, mismatch_count.
  destruct (decide (s = 4%Z)); [contradiction |].
  destruct (low_lux_light_down s a), (high_lux_light_up s a),
    (cold_temp_down s a), (hot_temp_up s a); simpl; intros; try lia; lra.
Qed.

(** C9: for a reading outside state 4, at most one of the four mismatch
    conditions holds, and the reward before clamping is comfort plus
    energy minus 0.3 per condition that holds, so the shaping term is 0
    or -0.3. *)
Theorem shaping_at_most_one_penalty (l t : R) (a : Z) :
  get_state l t ≠ 4%Z →
  let n := mismatch_count (get_state l t) a in
  (n <= 1)%nat ∧
  unclamped_reward l t a = R_comfort l t + R_energy_cost a - 0.3 * INR n ∧
  (unclamped_reward l t a - (R_comfort l t + R_energy_cost a) = 0
   ∨ unclamped_reward l t a - (R_comfort l t + R_energy_cost a) = -0.3).
Proof.
  intros Hs n.
  assert (Hn : (n <= 1)%nat) by apply mismatch_count_le_1.
  assert (Hu : unclamped_reward l t a
               = R_comfort l t + R_energy_cost a - 0.3 * INR n).
  { unfold unclamped_reward. apply R_shaping_outside_4, Hs. }
  split; [exact Hn | split; [exact Hu |]].
  rewrite Hu. destruct n as [| [| ?]]; simpl; [left | right | lia]; lra.
Qed.

Lemma shaping_at_most_one_penalty_witness :
  get_state 80.0 16.0 ≠ 4%Z ∧
  unclamped_reward 80.0 16.0 A_LIGHT_DOWN
  = R_comfort 80.0 16.0 + R_energy_cost A_LIGHT_DOWN
    - 0.3 * INR (mismatch_count (get_state 80.0 16.0) A_LIGHT_DOWN).
Proof.
  assert (H : get_state 80.0 16.0 ≠ 4%Z).
  { intros E. apply get_state_4 in E. lra. }
  split; [exact H |].
  exact (proj1 (proj2 (shaping_at_most_one_penalty 80.0 16.0 A_LIGHT_DOWN H))).
Defined.

(** In state 4 the comfort term is above 0.6: the reading is within
    scaled distance 4 of the target. *)
Lemma R_comfort_state_4 (l t : R) :
  get_state l t = 4%Z → 0.6 <= R_comfort l t <= 1.0.
Proof.
  intros H. apply get_state_4 in H. split; [| apply R_comfort_le_1].
  pose proof (R_comfort_lower l t 4) as Hc.
  assert (((l - 300.0) / 100.0) ^ 2 + (t - 21.0) ^ 2 <= 4 * 4) by nra.
  lra.
Qed.

(** C10: in state 4 with no previous action ([a_prev = -1]) the energy
    term is zero and the shaping subtracts 3.0, as for an active action;
    the reward is the comfort term minus 3.0, and the clamp leaves it
    alone. *)
Theorem s4_sentinel_penalised (l t : R) :
  get_state l t = 4%Z →
  R_energy_cost NO_PREV = 0 ∧
  (∀ reward, R_shaping (get_state l t) NO_PREV reward = reward - 3.0
             ∧ R_shaping (get_state l t) NO_PREV reward
               = R_shaping (get_state l t) A_LIGHT_UP reward) ∧
  unclamped_reward l t NO_PREV = R_comfort l t - 3.0 ∧
  calculate_reward l t NO_PREV = R_comfort l t - 3.0.
Proof.
  intros H4.
  assert (He : R_energy_cost NO_PREV = 0).
  { unfold R_energy_cost, NO_PREV; simpl. lra. }
  assert (Hs : ∀ reward, R_shaping (get_state l t) NO_PREV reward = reward - 3.0).
  { intros reward. rewrite H4. reflexivity. }
  assert (Hu : unclamped_reward l t NO_PREV = R_comfort l t - 3.0).
  { unfold unclamped_reward. rewrite Hs, He. lra. }
  split; [exact He | split; [| split; [exact Hu |]]].
  - intros reward. split; [apply Hs |]. rewrite H4. reflexivity.
  - unfold calculate_reward. rewrite Hu.
    pose proof (R_comfort_state_4 l t H4). apply clamp_inside. lra.
Qed.

Lemma s4_sentinel_penalised_witness :
  get_state 300.0 21.0 = 4%Z ∧ calculate_reward 300.0 21.0 NO_PREV = -2.0.
Proof.
  assert (H : get_state 300.0 21.0 = 4%Z) by (apply get_state_4; lra).
  split; [exact H |].
  rewrite (proj2 (proj2 (proj2 (s4_sentinel_penalised 300.0 21.0 H)))).
  rewrite R_comfort_target. lra.
Defined.

(** ** Environment *)

Lemma step_NATURAL_LUX_BASE (e : Environment) (a : Z) (d : step_draws) :
  NATURAL_LUX_BASE (step e a d) = NATURAL_LUX_BASE e.
Proof. unfold step. repeat destruct (decide _); reflexivity. Qed.

Lemma step_outside_temp (e : Environment) (a : Z) (d : step_draws) :
  outside_temp (step e a d) = outside_temp e.
Proof. unfold step. repeat destruct (decide _); reflexivity. Qed.

Lemma step_TEMP_DRIFT_RATE (e : Environment) (a : Z) (d : step_draws) :
  TEMP_DRIFT_RATE (step e a d) = TEMP_DRIFT_RATE e.
Proof. unfold step. repeat destruct (decide _); reflexivity. Qed.

Lemma step_LUX_DRIFT_RATE (e : Environment) (a : Z) (d : step_draws) :
  LUX_DRIFT_RATE (step e a d) = LUX_DRIFT_RATE e.
Proof. unfold step. repeat destruct (decide _); reflexivity. Qed.

(** One call of [step] leaves lux at or above the floor, whatever the
    action and the draws. *)
Lemma step_lux_floor (e : Environment) (a : Z) (d : step_draws) :
  NATURAL_LUX_BASE e <= lux (step e a d).
Proof.
  unfold step. repeat destruct (decide _); simpl; apply Rmax_r.
Qed.

(** The first two actions a fresh table can choose, from the initial
    reading and with mid-range draws. *)
Example step_light_up_initial :
  let e := step (Environment_init 80.0 16.0 20.0) A_LIGHT_UP
             (mkStepDraws 0.01 1.0 1.0) in
  lux e = 175 ∧ temp e = 16.2.
Proof. simpl. split; [clamp_cases | lra]. Qed.

Example step_light_down_floor :
  lux (step (Environment_init 80.0 16.0 20.0) A_LIGHT_DOWN
         (mkStepDraws 0.01 1.0 1.0)) = 50.
Proof. simpl. clamp_cases. Qed.

Lemma steps_from_NATURAL_LUX_BASE (calls : list (Z * step_draws)) (e : Environment) :
  NATURAL_LUX_BASE (steps_from e calls) = NATURAL_LUX_BASE e.
Proof.
  revert e. induction calls as [| c calls IH]; intros e; [reflexivity |].
  unfold steps_from in *. simpl. rewrite IH. apply step_NATURAL_LUX_BASE.
Qed.

Lemma steps_from_snoc (calls : list (Z * step_draws)) (c : Z * step_draws)
    (e : Environment) :
  steps_from e (calls ++ [c]) = step (steps_from e calls) c.1 c.2.
Proof. unfold steps_from. rewrite foldl_app. reflexivity. Qed.

Lemma steps_from_lux_floor (calls : list (Z * step_draws)) (e : Environment) :
  calls ≠ [] ∨ NATURAL_LUX_BASE e <= lux e →
  NATURAL_LUX_BASE e <= lux (steps_from e calls).
Proof.
  intros H. destruct calls as [| c calls' _] using rev_ind.
  - destruct H as [H | H]; [contradiction | exact H].
  - rewrite steps_from_snoc.
    rewrite <- (steps_from_NATURAL_LUX_BASE calls' e). apply step_lux_floor.
Qed.

(** C6: after one or more calls of [step], with any actions (even
    integers that are no action) and any values for the draws, lux is at
    least 50.0; it is so after no call at all when the environment was
    created with a lux of 50.0 or more, as [run_simulation] does. *)
Theorem lux_floor_enforced (initial_lux initial_temp outside : R)
    (calls : list (Z * step_draws)) :
  calls ≠ [] ∨ 50.0 <= initial_lux →
  50.0 <= lux (steps_from (Environment_init initial_lux initial_temp outside) calls).
Proof.
  intros H.
  apply (steps_from_lux_floor calls
           (Environment_init initial_lux initial_temp outside)).
  exact H.
Qed.

Lemma lux_floor_enforced_witness :
  50.0 <= lux (steps_from (Environment_init 30.0 16.0 20.0)
                 [(A_LIGHT_DOWN, mkStepDraws 0.01 1.0 1.0);
                  (A_DO_NOTHING, mkStepDraws 0.01 1.0 1.0)]).
Proof. apply lux_floor_enforced. left. discriminate. Defined.

(** ** NumPy primitives *)

Lemma np_index_in (n : nat) (i : Z) :
  (0 <= i < Z.of_nat n)%Z → np_index n i = Some (Z.to_nat i).
Proof. intros ?. unfold np_index. rewrite decide_True by assumption. reflexivity. Qed.

(** A negative index counts from the end. *)
Example np_index_last : np_index 5 (-1) = Some 4%nat.
Proof. reflexivity. Qed.

Example np_index_out_of_range : np_index 5 5 = None ∧ np_index 5 (-6) = None.
Proof. split; reflexivity. Qed.

Lemma foldl_Rmax_spec (l : list R) (x : R) :
  foldl Rmax x l ∈ x :: l ∧ Forall (λ y, y <= foldl Rmax x l) (x :: l).
Proof.
  revert x. induction l as [| y l IH]; intros x; simpl.
  - split; [left | constructor; [simpl; lra | constructor]].
  - destruct (IH (Rmax x y)) as [Hin Hall].
    apply Forall_cons in Hall as [Hm Hall].
    split.
    + apply elem_of_cons in Hin as [-> | Hin].
      * unfold Rmax. destruct (Rle_dec x y); [right; left | left].
      * right; right; exact Hin.
    + pose proof (Rmax_l x y). pose proof (Rmax_r x y).
      simpl in Hm.
      apply Forall_cons; split; [lra |].
      apply Forall_cons; split; [lra | exact Hall].
Qed.

Lemma np_max_spec (l : list R) (m : R) :
  np_max l = Some m → m ∈ l ∧ Forall (λ y, y <= m) l.
Proof.
  destruct l as [| x l]; simpl; [discriminate |].
  intros [= <-]. apply foldl_Rmax_spec.
Qed.

(** The scan either keeps the running best, which then bounds the rest of
    the list, or moves to the first later position that holds the largest
    value. *)
Lemma argmax_from_spec (l : list R) (best_i : nat) (best : R) (i : nat) :
  (argmax_from best_i best i l = best_i ∧ Forall (λ y, y <= best) l)
  ∨ (∃ (k : nat) (v : R),
        argmax_from best_i best i l = (i + k)%nat ∧ l !! k = Some v ∧ best < v ∧
        Forall (λ y, y <= v) l ∧
        ∀ (j : nat) (y : R), (j < k)%nat → l !! j = Some y → y < v).
Proof.
  revert best_i best i. induction l as [| x l IH]; intros best_i best i; simpl.
  - left. split; [reflexivity | constructor].
  - destruct (Rlt_dec best x) as [Hlt | Hge].
    + right.
      destruct (IH i x (S i))
        as [[Hr Hall] | (k & v & Hr & Hk & Hv & Hall & Hbefore)].
      * exists 0%nat, x. split_and!.
        -- rewrite Hr. lia.
        -- reflexivity.
        -- exact Hlt.
        -- apply Forall_cons; split; [lra | exact Hall].
        -- intros j y Hj. lia.
      * exists (S k), v. split_and!.
        -- rewrite Hr. lia.
        -- exact Hk.
        -- lra.
        -- apply Forall_cons; split; [lra | exact Hall].
        -- intros [| j] y Hj Hy; simpl in Hy.
           ++ injection Hy as <-. exact Hv.
           ++ apply (Hbefore j y); [lia | exact Hy].
    + destruct (IH best_i best (S i))
        as [[Hr Hall] | (k & v & Hr & Hk & Hv & Hall & Hbefore)].
      * left. split; [exact Hr |].
        apply Forall_cons; split; [lra | exact Hall].
      * right. exists (S k), v. split_and!.
        -- rewrite Hr. lia.
        -- exact Hk.
        -- exact Hv.
        -- apply Forall_cons; split; [lra | exact Hall].
        -- intros [| j] y Hj Hy; simpl in Hy.
           ++ injection Hy as <-. lra.
           ++ apply (Hbefore j y); [lia | exact Hy].
Qed.

(** [np_argmax] returns the first position of the largest value. *)
Lemma np_argmax_spec (l : list R) (i : Z) :
  np_argmax l = Some i →
  ∃ m, (0 <= i < Z.of_nat (length l))%Z ∧ l !! Z.to_nat i = Some m ∧
       Forall (λ y, y <= m) l ∧
       ∀ (j : nat) (y : R), (j < Z.to_nat i)%nat → l !! j = Some y → y < m.
Proof.
  destruct l as [| x l]; simpl; [discriminate |].
  intros [= <-].
  destruct (argmax_from_spec l 0 x 1)
    as [[-> Hall] | (k & v & -> & Hk & Hv & Hall & Hbefore)].
  - exists x. split; [simpl; lia |]. split_and!.
    + reflexivity.
    + apply Forall_cons; split; [lra | exact Hall].
    + intros j y Hj. simpl in Hj. lia.
  - exists v. rewrite Nat2Z.id.
    split; [apply lookup_lt_Some in Hk; simpl; lia |]. split_and!.
    + exact Hk.
    + apply Forall_cons; split; [lra | exact Hall].
    + intros [| j] y Hj Hy; simpl in Hy.
      * injection Hy as <-. exact Hv.
      * apply (Hbefore j y); [simpl in Hj; lia | exact Hy].
Qed.

Lemma np_argmax_is_Some (l : list R) : l ≠ [] → is_Some (np_argmax l).
Proof. destruct l; [contradiction | intros _; eexists; reflexivity]. Qed.

(** A cell strictly above every other cell of its row is the argmax. *)
Lemma np_argmax_strict (l : list R) (k : nat) (x : R) :
  l !! k = Some x →
  (∀ (j : nat) (y : R), j ≠ k → l !! j = Some y → y < x) →
  np_argmax l = Some (Z.of_nat k).
Proof.
  intros Hk Hothers.
  destruct (np_argmax_is_Some l) as [i Hi].
  { intros ->. discriminate. }
  rewrite Hi. f_equal.
  destruct (np_argmax_spec l i Hi) as (m & Hr & Hm & Hall & _).
  destruct (decide (Z.to_nat i = k)) as [<- | Hne]; [lia |].
  pose proof (Hothers _ _ Hne Hm) as Hlt.
  pose proof (Forall_lookup_1 _ _ _ _ Hall Hk) as Hle. simpl in Hle. lra.
Qed.

(** Ties go to the lowest index: a fresh row of zeros picks action 0. *)
Example np_argmax_tie : np_argmax [0.0; 0.0; 0.0; 0.0; 0.0] = Some 0%Z.
Proof.
  unfold np_argmax, argmax_from.
  repeat (destruct (Rlt_dec _ _) as [? | _]; [exfalso; lra |]). reflexivity.
Qed.

Example np_max_row : np_max [1; 3; 2] = Some 3.
Proof.
  unfold np_max. simpl. f_equal. unfold Rmax.
  repeat destruct (Rle_dec _ _); lra.
Qed.

(** ** The Q-table *)

Section ShapedTable.
Context (q : list (list R)) (Hq : Q_shape q).

Lemma Q_shape_row (s : Z) :
  (0 <= s < 9)%Z →
  ∃ row, q !! Z.to_nat s = Some row ∧ length row = 5%nat ∧ Q_row q s = Some row.
Proof.
  destruct Hq as [Hlen Hrows]. intros Hs.
  destruct (lookup_lt_is_Some_2 q (Z.to_nat s)) as [row Hrow].
  { rewrite Hlen. unfold STATE_SPACE_SIZE, LUX_BINS, TEMP_BINS. lia. }
  exists row. split; [exact Hrow | split].
  - apply (Forall_lookup_1 _ _ _ _ Hrows Hrow).
  - unfold Q_row. rewrite np_index_in; [exact Hrow |].
    rewrite Hlen. unfold STATE_SPACE_SIZE, LUX_BINS, TEMP_BINS. lia.
Qed.

Lemma Q_get_in_row (s a : Z) (row : list R) :
  Q_row q s = Some row → length row = 5%nat → (0 <= a < 5)%Z →
  Q_get q s a = row !! Z.to_nat a.
Proof.
  intros Hr Hlen Ha. unfold Q_get. rewrite Hr. simpl.
  rewrite np_index_in by lia. reflexivity.
Qed.

Lemma Q_get_is_Some (s a : Z) :
  (0 <= s < 9)%Z → (0 <= a < 5)%Z → is_Some (Q_get q s a).
Proof.
  intros Hs Ha.
  destruct (Q_shape_row s Hs) as (row & _ & Hlen & Hr).
  rewrite (Q_get_in_row s a row) by assumption.
  apply lookup_lt_is_Some_2. lia.
Qed.

Lemma Q_get_elem (s a : Z) (row : list R) (v : R) :
  Q_row q s = Some row → Q_get q s a = Some v → v ∈ row.
Proof.
  intros Hr. unfold Q_get. rewrite Hr. simpl.
  destruct (np_index (length row) a) as [j |]; simpl; [| discriminate].
  apply list_elem_of_lookup_2.
Qed.

(** [np.max(q[s, :])] succeeds and is the largest value of the row. *)
Lemma row_max_spec (s : Z) :
  (0 <= s < 9)%Z →
  ∃ m, (row ← Q_row q s; np_max row) = Some m ∧ is_row_max q s m.
Proof.
  intros Hs.
  destruct (Q_shape_row s Hs) as (row & _ & Hlen & Hr).
  destruct row as [| x row]; [discriminate |].
  exists (foldl Rmax x row).
  assert (Hm : np_max (x :: row) = Some (foldl Rmax x row)) by reflexivity.
  split; [rewrite Hr; exact Hm |].
  destruct (np_max_spec _ _ Hm) as [Hin Hall]. split.
  - apply list_elem_of_lookup_1 in Hin as [i Hi].
    pose proof (lookup_lt_Some _ _ _ Hi) as Hlt.
    exists (Z.of_nat i). split; [unfold ACTION_SPACE_SIZE; lia |].
    rewrite (Q_get_in_row s (Z.of_nat i) (x :: row)) by (assumption || lia).
    rewrite Nat2Z.id. exact Hi.
  - intros a v Hv. pose proof (Q_get_elem _ _ _ _ Hr Hv) as Hel.
    rewrite Forall_forall in Hall. apply Hall, Hel.
Qed.

Lemma best_action_is_Some (s : Z) :
  (0 <= s < 9)%Z → ∃ b, best_action q s = Some b ∧ (0 <= b < 5)%Z.
Proof.
  intros Hs.
  destruct (Q_shape_row s Hs) as (row & _ & Hlen & Hr).
  destruct (np_argmax_is_Some row) as [b Hb]; [intros ->; discriminate |].
  exists b. split; [unfold best_action; rewrite Hr; exact Hb |].
  destruct (np_argmax_spec _ _ Hb) as (m & Hrange & _). lia.
Qed.

(** The greedy action of a state is the action whose cell is strictly
    above the four others. *)
Lemma best_action_strict (s a : Z) (x : R) :
  (0 <= s < 9)%Z → (0 <= a < 5)%Z →
  Q_get q s a = Some x →
  (∀ a0 y, (0 <= a0 < 5)%Z → a0 ≠ a → Q_get q s a0 = Some y → y < x) →
  best_action q s = Some a.
Proof.
  intros Hs Ha Hx Hothers.
  destruct (Q_shape_row s Hs) as (row & _ & Hlen & Hr).
  unfold best_action. rewrite Hr. simpl.
  rewrite <- (Z2Nat.id a) by lia.
  rewrite (Q_get_in_row s a row) in Hx by assumption.
  apply (np_argmax_strict row (Z.to_nat a) x Hx).
  intros j y Hne Hy. pose proof (lookup_lt_Some _ _ _ Hy) as Hj.
  apply (Hothers (Z.of_nat j) y); [lia | lia |].
  rewrite (Q_get_in_row s (Z.of_nat j) row) by (assumption || lia).
  rewrite Nat2Z.id. exact Hy.
Qed.

(** [q[s, a] = v] succeeds, keeps the shape, and changes that cell
    only. *)
Lemma Q_set_spec (s a : Z) (v : R) :
  (0 <= s < 9)%Z → (0 <= a < 5)%Z →
  ∃ q', Q_set q s a v = Some q' ∧ Q_shape q' ∧
        q' = <[Z.to_nat s := <[Z.to_nat a := v]> (default [] (q !! Z.to_nat s))]> q.
Proof.
  intros Hs Ha.
  destruct (Q_shape_row s Hs) as (row & Hrow & Hlen & Hr).
  rewrite Hrow. simpl. eexists. split_and!; [| | reflexivity].
  - unfold Q_set. destruct Hq as [Hl _].
    rewrite np_index_in
      by (rewrite Hl; unfold STATE_SPACE_SIZE, LUX_BINS, TEMP_BINS; lia).
    simpl. rewrite Hrow. simpl. rewrite np_index_in by lia. reflexivity.
  - destruct Hq as [Hl Hf]. split.
    + rewrite length_insert. exact Hl.
    + apply Forall_insert; [exact Hf |].
      rewrite length_insert, Hlen. reflexivity.
Qed.
End ShapedTable.

(** Reading the table after [q[s, a] = v]. *)
Lemma Q_get_set (q q' : list (list R)) (s a : Z) (v : R) :
  Q_shape q → (0 <= s < 9)%Z → (0 <= a < 5)%Z →
  Q_set q s a v = Some q' →
  Q_shape q' ∧
  Q_get q' s a = Some v ∧
  ∀ s0 a0, (0 <= s0 < 9)%Z → (0 <= a0 < 5)%Z → (s0 ≠ s ∨ a0 ≠ a) →
           Q_get q' s0 a0 = Q_get q s0 a0.
Proof.
  intros Hq Hs Ha Hset.
  destruct (Q_set_spec q Hq s a v Hs Ha) as (q'' & Hset' & Hq' & Heq).
  assert (q'' = q') as -> by congruence.
  destruct (Q_shape_row q Hq s Hs) as (row & Hrow & Hlen & Hr).
  rewrite Hrow in Heq. simpl in Heq.
  assert (Hrow' : q' !! Z.to_nat s = Some (<[Z.to_nat a := v]> row)).
  { rewrite Heq. apply list_lookup_insert_eq. apply (lookup_lt_Some _ _ _ Hrow). }
  destruct (Q_shape_row q' Hq' s Hs) as (row' & Hrow'' & Hlen' & Hr').
  assert (row' = <[Z.to_nat a := v]> row) as -> by congruence.
  split; [exact Hq' | split].
  - rewrite (Q_get_in_row q' s a _ Hr' Hlen' Ha).
    apply list_lookup_insert_eq. lia.
  - intros s0 a0 Hs0 Ha0 Hne.
    destruct (decide (s0 = s)) as [-> | Hs0s].
    + rewrite (Q_get_in_row q' s a0 _ Hr' Hlen' Ha0),
        (Q_get_in_row q s a0 _ Hr Hlen Ha0).
      apply list_lookup_insert_ne. destruct Hne; [contradiction | lia].
    + destruct (Q_shape_row q Hq s0 Hs0) as (row0 & Hrow0 & _ & Hr0).
      destruct (Q_shape_row q' Hq' s0 Hs0) as (row0' & Hrow0' & _ & Hr0').
      assert (row0' = row0) as ->.
      { rewrite Heq, list_lookup_insert_ne in Hrow0' by lia. congruence. }
      unfold Q_get. rewrite Hr0, Hr0'. reflexivity.
Qed.

(** *** The trainer *)

Lemma max_q_spec (self : QLearningTrainer) (s : Z) :
  Q_shape (Q_table self) → (0 <= s < 9)%Z →
  ∃ m, max_q self s = Some m ∧ is_row_max (Q_table self) s m.
Proof. intros Hq Hs. apply (row_max_spec _ Hq s Hs). Qed.

(** What a call of [update_q_table] with a previous transition computes:
    it reads the old cell and the row maximum, writes the Bellman value,
    and returns without an error. *)
Lemma update_q_table_spec (self : QLearningTrainer) (s a : Z) (r : R) (s' : Z) :
  Q_shape (Q_table self) → (0 <= s < 9)%Z → (0 <= a < 5)%Z → (0 <= s' < 9)%Z →
  ∃ old m q' self',
    Q_get (Q_table self) s a = Some old ∧
    max_q self s' = Some m ∧
    Q_set (Q_table self) s a (old + ALPHA * (r + GAMMA * m - old)) = Some q' ∧
    update_q_table self s a r s' = Some self' ∧
    Q_table self' = q'.
Proof.
  intros Hq Hs Ha Hs'.
  destruct (Q_get_is_Some _ Hq s a Hs Ha) as [old Hold].
  destruct (max_q_spec self s' Hq Hs') as (m & Hm & _).
  destruct (Q_set_spec _ Hq s a (old + ALPHA * (r + GAMMA * m - old)) Hs Ha)
    as (q' & Hset & Hq' & _).
  destruct (best_action_is_Some _ Hq s Hs) as (b0 & Hb0 & _).
  destruct (best_action_is_Some _ Hq' s Hs) as (b1 & Hb1 & _).
  unfold best_action in Hb0, Hb1.
  destruct (Q_row (Q_table self) s) as [row0 |] eqn:Hr0; [| discriminate].
  destruct (Q_row q' s) as [row1 |] eqn:Hr1; [| discriminate].
  simpl in Hb0, Hb1.
  exists old, m, q'. eexists. split_and!; try done.
  - unfold update_q_table. rewrite decide_False by lia.
    rewrite Hr0. simpl. rewrite Hb0. simpl. rewrite Hold. simpl.
    rewrite Hm. simpl. rewrite Hset. simpl. rewrite Hr1. simpl.
    rewrite Hb1. simpl. reflexivity.
  - reflexivity.
Qed.

(** The table after [update_q_table]: the written cell holds the Bellman
    value and every other cell is as before. *)
Lemma update_q_table_cells (self : QLearningTrainer) (s a : Z) (r : R) (s' : Z) :
  Q_shape (Q_table self) →
  (0 <= s < 9)%Z → (0 <= a < 5)%Z → (0 <= s' < 9)%Z →
  ∃ old m self',
    Q_get (Q_table self) s a = Some old ∧
    is_row_max (Q_table self) s' m ∧
    update_q_table self s a r s' = Some self' ∧
    Q_shape (Q_table self') ∧
    Q_get (Q_table self') s a = Some (old + ALPHA * (r + GAMMA * m - old)) ∧
    ∀ s0 a0, (0 <= s0 < 9)%Z → (0 <= a0 < 5)%Z → (s0 ≠ s ∨ a0 ≠ a) →
             Q_get (Q_table self') s0 a0 = Q_get (Q_table self) s0 a0.
Proof.
  intros Hq Hs Ha Hs'.
  destruct (update_q_table_spec self s a r s' Hq Hs Ha Hs')
    as (old & m & q' & self' & Hold & Hm & Hset & Hup & Htab).
  destruct (max_q_spec self s' Hq Hs') as (m' & Hm' & Hmax).
  assert (m' = m) as -> by congruence.
  destruct (Q_get_set _ _ s a _ Hq Hs Ha Hset) as (Hq' & Hget & Hother).
  exists old, m, self'. rewrite Htab. split_and!; assumption.
Qed.

(** C1: with a well-shaped table, a previous state in [0, 9), a previous
    action in [0, 5) and a new state in [0, 9), [update_q_table] succeeds;
    the cell at (previous state, previous action) becomes
    [old + 0.05 * (r + 0.85 * m - old)], where [old] is its former value
    and [m] the largest value of the new state's row, and every other cell
    keeps its value. *)
Theorem bellman_update (self : QLearningTrainer) (s a : Z) (r : R) (s' : Z) :
  Q_shape (Q_table self) →
  (0 <= s < 9)%Z → (0 <= a < 5)%Z → (0 <= s' < 9)%Z →
  ∃ old m self',
    Q_get (Q_table self) s a = Some old ∧
    is_row_max (Q_table self) s' m ∧
    update_q_table self s a r s' = Some self' ∧
    Q_get (Q_table self') s a = Some (old + 0.05 * (r + 0.85 * m - old)) ∧
    ∀ s0 a0, (0 <= s0 < 9)%Z → (0 <= a0 < 5)%Z → (s0 ≠ s ∨ a0 ≠ a) →
             Q_get (Q_table self') s0 a0 = Q_get (Q_table self) s0 a0.
Proof.
  intros Hq Hs Ha Hs'.
  destruct (update_q_table_cells self s a r s' Hq Hs Ha Hs')
    as (old & m & self' & Hold & Hm & Hup & _ & Hnew & Hother).
  exists old, m, self'. split_and!; assumption.
Qed.

Lemma bellman_update_witness :
  let self := mkTrainer [ [0; 0; 0; 0; 0]; [1; 2; 3; 2; 1]; [0; 0; 0; 0; 0];
                          [0; 0; 0; 0; 0]; [0; 0; 0; 0; 10]; [0; 0; 0; 0; 0];
                          [0; 0; 0; 0; 0]; [0; 0; 0; 0; 0]; [0; 0; 0; 0; 0] ] 0 0 in
  ∃ old m self',
    Q_get (Q_table self) 4 4 = Some old ∧
    is_row_max (Q_table self) 1 m ∧
    update_q_table self 4 4 5 1 = Some self' ∧
    Q_get (Q_table self') 4 4 = Some (old + 0.05 * (5 + 0.85 * m - old)) ∧
    ∀ s0 a0, (0 <= s0 < 9)%Z → (0 <= a0 < 5)%Z → (s0 ≠ 4%Z ∨ a0 ≠ 4%Z) →
             Q_get (Q_table self') s0 a0 = Q_get (Q_table self) s0 a0.
Proof.
  intros self. apply (bellman_update self 4 4 5 1); [| lia | lia | lia].
  split; [reflexivity |].
  repeat (apply Forall_cons; split; [reflexivity |]). constructor.
Defined.

(** C4: when the previous state or the previous action is the [-1] of the
    first iteration, [update_q_table] returns the trainer as it was: the
    table and both counters are untouched, whatever the reward and the new
    state. *)
Theorem update_noop_without_previous (self : QLearningTrainer) (s a : Z) (r : R)
    (s' : Z) :
  s = NO_PREV ∨ a = NO_PREV →
  update_q_table self s a r s' = Some self.
Proof.
  intros H. unfold update_q_table. rewrite decide_True; [reflexivity |].
  unfold NO_PREV in H. lia.
Qed.

Lemma update_noop_without_previous_witness :
  update_q_table (mkTrainer [] 7 3) NO_PREV NO_PREV 1.0 4 = Some (mkTrainer [] 7 3).
Proof. apply update_noop_without_previous. left. reflexivity. Defined.

Lemma QLearningTrainer_init_eq :
  QLearningTrainer_init
  = Some {| Q_table := [ [0.0; 0.0; 0.0; 0.0; 0.0];
                         [0.0; 0.0; 0.0; 0.0; 0.0];
                         [0.0; 0.0; 0.0; 0.0; 0.0];
                         [0.0; 0.0; 0.0; 0.0; 0.0];
                         [0.0; 0.0; 0.0; 0.0; 10.0];
                         [0.0; 0.0; 0.0; 0.0; 0.0];
                         [0.0; 0.0; 0.0; 0.0; 0.0];
                         [0.0; 0.0; 0.0; 0.0; 0.0];
                         [0.0; 0.0; 0.0; 0.0; 0.0] ];
            crucial_updates_count := 0;
            policy_changes_count := 0 |}.
Proof. reflexivity. Qed.

(** The trainer [__init__] builds: a 9 x 5 table that is zero except for
    10.0 at (4, IDLE), and two zero counters. *)
Lemma QLearningTrainer_init_cells :
  ∃ self, QLearningTrainer_init = Some self ∧
          Q_shape (Q_table self) ∧
          crucial_updates_count self = 0%Z ∧ policy_changes_count self = 0%Z ∧
          ∀ s a, (0 <= s < 9)%Z → (0 <= a < 5)%Z →
                 Q_get (Q_table self) s a
                 = Some (if decide (s = 4%Z ∧ a = A_DO_NOTHING) then 10.0 else 0.0).
Proof.
  eexists. split; [apply QLearningTrainer_init_eq |]. simpl.
  split; [split; [reflexivity | repeat (apply Forall_cons; split; [reflexivity |]); constructor] |].
  split; [reflexivity |]. split; [reflexivity |].
  intros s a Hs Ha.
  assert (s = 0 ∨ s = 1 ∨ s = 2 ∨ s = 3 ∨ s = 4 ∨ s = 5 ∨ s = 6 ∨ s = 7 ∨ s = 8)%Z
    as Hs' by lia.
  assert (a = 0 ∨ a = 1 ∨ a = 2 ∨ a = 3 ∨ a = 4)%Z as Ha' by lia.
  destruct_or!; subst; reflexivity.
Qed.

(** IDLE out of state 1 into the target state with the top reward: the
    TD error 14.5 is a crucial update and moves the greedy action of state
    1 from LIGHT+ to IDLE. *)
Example update_idle_into_target :
  ∃ self0 self1,
    QLearningTrainer_init = Some self0 ∧
    update_q_table self0 1 A_DO_NOTHING 6.0 4 = Some self1 ∧
    Q_get (Q_table self1) 1 A_DO_NOTHING = Some 0.725 ∧
    crucial_updates_count self1 = 1%Z ∧
    policy_changes_count self1 = 1%Z.
Proof.
  eexists. eexists. split; [apply QLearningTrainer_init_eq |].
  split; [reflexivity |]. simpl. unfold ALPHA, GAMMA, CRUCIAL_TD_THRESHOLD.
  real_cases. split_and!.
  - unfold Q_get, Q_row. simpl. f_equal. lra.
  - reflexivity.
  - reflexivity.
Qed.

(** The first iteration of the greedy run: no update, LIGHT+ is chosen
    (argmax of a zero row) and applied. *)
Example first_episode :
  ∃ st0 st1,
    simulation_start = Some st0 ∧
    episode 0 st0 (mkEpisodeDraws 0.5 0 (mkStepDraws 0.01 1.0 1.0)) = Some st1 ∧
    trainer st1 = trainer st0 ∧
    s_prev st1 = 0%Z ∧ a_prev st1 = A_LIGHT_UP ∧
    lux (env st1) = 175 ∧ temp (env st1) = 16.2.
Proof.
  eexists. eexists. split.
  { unfold simulation_start. rewrite QLearningTrainer_init_eq. reflexivity. }
  unfold episode. simpl. rewrite get_state_initial. simpl.
  unfold choose_action. destruct (Rlt_dec 0.5 0) as [? | _]; [exfalso; lra |].
  simpl. repeat (destruct (Rlt_dec _ _) as [? | _]; [exfalso; lra |]). simpl.
  split; [reflexivity |]. simpl.
  split_and!; try reflexivity; [clamp_cases | lra].
Qed.

(** C5: right after [QLearningTrainer.__init__] the cell at (state 4,
    IDLE) is 10.0, each of the other 44 cells is 0.0, and the greedy action
    of state 4 is IDLE. *)
Theorem seeded_table_values :
  ∃ self, QLearningTrainer_init = Some self ∧
          Q_get (Q_table self) 4 A_DO_NOTHING = Some 10.0 ∧
          (∀ s a, (0 <= s < 9)%Z → (0 <= a < 5)%Z → s ≠ 4%Z ∨ a ≠ A_DO_NOTHING →
                  Q_get (Q_table self) s a = Some 0.0) ∧
          best_action (Q_table self) 4 = Some A_DO_NOTHING.
Proof.
  destruct QLearningTrainer_init_cells as (self & Hinit & Hq & _ & _ & Hcells).
  exists self. split; [exact Hinit |].
  assert (H44 : Q_get (Q_table self) 4 A_DO_NOTHING = Some 10.0).
  { rewrite Hcells by done. reflexivity. }
  assert (H0 : ∀ s a, (0 <= s < 9)%Z → (0 <= a < 5)%Z → s ≠ 4%Z ∨ a ≠ A_DO_NOTHING →
                      Q_get (Q_table self) s a = Some 0.0).
  { intros s a Hs Ha Hne. rewrite Hcells by assumption.
    rewrite decide_False; [reflexivity | tauto]. }
  split; [exact H44 | split; [exact H0 |]].
  apply (best_action_strict _ Hq 4 A_DO_NOTHING 10.0); [lia | done | exact H44 |].
  intros a0 y Ha0 Hne Hy. rewrite H0 in Hy by (lia || tauto).
  injection Hy as <-. lra.
Qed.

(** ** The greedy run *)

Lemma mismatch_count_idle (s : Z) : mismatch_count s A_DO_NOTHING = 0%nat.
Proof.
  unfold mismatch_count, low_lux_light_down, high_lux_light_up,
    cold_temp_down, hot_temp_up.
  rewrite !(bool_decide_eq_false_2 (A_DO_NOTHING = _)) by discriminate.
  rewrite !andb_false_r. reflexivity.
Qed.

(** After IDLE, a reading with lux in [50, 500) and temp in the middle bin
    earns a positive reward. *)
Lemma reward_after_idle (l t : R) :
  50.0 <= l < 500.0 → 18.0 < t < 24.0 →
  0.65 <= calculate_reward l t A_DO_NOTHING.
Proof.
  intros Hl Ht.
  assert (Hc : 0.6 <= R_comfort l t).
  { pose proof (R_comfort_lower l t 4) as Hc.
    assert (((l - 300.0) / 100.0) ^ 2 + (t - 21.0) ^ 2 <= 4 * 4) by nra.
    lra. }
  assert (He : R_energy_cost A_DO_NOTHING = 0.05) by reflexivity.
  assert (Hu : 0.65 <= unclamped_reward l t A_DO_NOTHING).
  { unfold unclamped_reward. rewrite He.
    destruct (decide (get_state l t = 4%Z)) as [H4 | H4].
    - rewrite H4. unfold R_shaping. simpl. lra.
    - rewrite (R_shaping_outside_4 _ _ _ H4), mismatch_count_idle. simpl. lra. }
  unfold calculate_reward.
  revert Hu. generalize (unclamped_reward l t A_DO_NOTHING). intros x Hx.
  clamp_cases.
Qed.

Lemma is_row_max_ge (q : list (list R)) (s a : Z) (m v : R) :
  is_row_max q s m → Q_get q s a = Some v → v <= m.
Proof. intros [_ H]. apply H. Qed.

Lemma is_row_max_bounded (q : list (list R)) (s : Z) (m : R) :
  Q_bounded q → (0 <= s < 9)%Z → is_row_max q s m → -20 <= m <= 40.
Proof.
  intros Hb Hs [(a & Ha & Hm) _].
  destruct (Hb s a Hs Ha) as (v & Hv & Hrange). congruence.
Qed.

(** The greedy action of state 4 is IDLE as long as the invariant holds. *)
Lemma table_inv_best_action_4 (q : list (list R)) :
  table_inv q → best_action q 4 = Some A_DO_NOTHING.
Proof.
  intros (Hq & _ & Hz & (x & Hx & Hpos) & _).
  apply (best_action_strict q Hq 4 A_DO_NOTHING x); [lia | done | exact Hx |].
  intros a0 y Ha0 Hne Hy. unfold A_DO_NOTHING in Hne.
  rewrite Hz in Hy by lia. injection Hy as <-. exact Hpos.
Qed.

(** An update keeps the table invariant when the reward is not negative
    for the transitions out of state 4 and for IDLE out of state 1, and
    those land in state 4 or 1. *)
Lemma update_table_inv (self : QLearningTrainer) (s a : Z) (r : R) (s' : Z) :
  table_inv (Q_table self) →
  (0 <= s < 9)%Z → (0 <= a < 5)%Z → (0 <= s' < 9)%Z →
  -3.0 <= r <= 6.0 →
  (s = 4%Z → a = A_DO_NOTHING ∧ 0 <= r ∧ (s' = 4%Z ∨ s' = 1%Z)) →
  (s = 1%Z → a = A_DO_NOTHING → 0 <= r ∧ s' = 1%Z) →
  ∃ self', update_q_table self s a r s' = Some self' ∧
           table_inv (Q_table self').
Proof.
  intros (Hq & Hb & Hz & (x & Hx & Hxpos) & (y & Hy & Hypos)) Hs Ha Hs' Hr H4 H1.
  destruct (update_q_table_cells self s a r s' Hq Hs Ha Hs')
    as (old & m & self' & Hold & Hm & Hup & Hq' & Hnew & Hother).
  exists self'. split; [exact Hup |].
  pose proof (is_row_max_bounded _ _ _ Hb Hs' Hm) as Hmb.
  destruct (Hb s a Hs Ha) as (old' & Hold' & Holdb).
  assert (old' = old) as -> by congruence.
  unfold ALPHA, GAMMA in Hnew.
  split_and!.
  - exact Hq'.
  - intros s0 a0 Hs0 Ha0.
    destruct (decide (s0 = s ∧ a0 = a)) as [[-> ->] | Hne].
    + eexists. split; [exact Hnew | lra].
    + rewrite Hother by (assumption || (apply not_and_l in Hne; exact Hne)).
      apply Hb; assumption.
  - intros a0 Ha0.
    rewrite Hother; [apply Hz, Ha0 | lia | unfold A_DO_NOTHING in *; lia |].
    destruct (decide (s = 4%Z)) as [-> | Hne]; [| left; congruence].
    destruct (H4 eq_refl) as [-> _]. right. unfold A_DO_NOTHING. lia.
  - destruct (decide (s = 4%Z ∧ a = A_DO_NOTHING)) as [[-> ->] | Hne].
    + destruct (H4 eq_refl) as (_ & Hrpos & Hs'cases).
      assert (Hmpos : 0 <= m).
      { destruct Hs'cases as [-> | ->].
        - pose proof (is_row_max_ge _ _ _ _ _ Hm Hx). lra.
        - pose proof (is_row_max_ge _ _ _ _ _ Hm Hy). lra. }
      assert (old = x) as -> by congruence.
      eexists. split; [exact Hnew | lra].
    + exists x. split; [| exact Hxpos].
      rewrite Hother; [exact Hx | lia | done |].
      apply not_and_l in Hne. destruct Hne; [left | right]; congruence.
  - destruct (decide (s = 1%Z ∧ a = A_DO_NOTHING)) as [[-> ->] | Hne].
    + destruct (H1 eq_refl eq_refl) as (Hrpos & ->).
      pose proof (is_row_max_ge _ _ _ _ _ Hm Hy) as Hmy.
      assert (old = y) as -> by congruence.
      eexists. split; [exact Hnew | lra].
    + exists y. split; [| exact Hypos].
      rewrite Hother; [exact Hy | lia | done |].
      apply not_and_l in Hne. destruct Hne; [left | right]; congruence.
Qed.

Lemma step_env_inv (e : Environment) (a : Z) (d : step_draws) :
  env_inv e → env_inv (step e a d).
Proof.
  unfold env_inv.
  rewrite step_outside_temp, step_TEMP_DRIFT_RATE, step_LUX_DRIFT_RATE,
    step_NATURAL_LUX_BASE. done.
Qed.

(** IDLE: lux drifts down to the floor at most, temp moves a twentieth of
    the way to the outside temperature. *)
Lemma step_idle (e : Environment) (d : step_draws) :
  env_inv e →
  lux (step e A_DO_NOTHING d) = Rmax (lux e - 5.0 * u_drift d) 50.0 ∧
  temp (step e A_DO_NOTHING d) = temp e + (20.0 - temp e) * 0.05.
Proof.
  intros (Ho & Ht & Hl & Hn). unfold step. simpl.
  rewrite Ho, Ht, Hl, Hn. done.
Qed.

Lemma choose_action_greedy (coin : R) (pick : Z) (q : list (list R)) (s : Z) :
  0 <= coin → choose_action 0 coin pick q s = best_action q s.
Proof.
  intros Hc. unfold choose_action, best_action.
  destruct (Rlt_dec coin 0); [exfalso; lra | reflexivity].
Qed.

(** One greedy iteration keeps the loop invariant. *)
Lemma episode_loop_inv (st : loop_state) (d : episode_draws) :
  loop_inv st → draws_in_range d →
  ∃ st', episode 0 st d = Some st' ∧ loop_inv st'.
Proof.
  destruct st as [tr e sp ap]. unfold loop_inv. simpl.
  intros (Htab & Henv & Htrans) (Hcoin & _ & _ & _ & Hdrift).
  pose proof (get_state_range (lux e) (temp e)) as Hsn.
  pose proof (clamp_range (unclamped_reward (lux e) (temp e) ap)) as Hr.
  change (Rmax _ _) with (calculate_reward (lux e) (temp e) ap) in Hr.
  assert (Hup : ∃ tr', update_q_table tr sp ap (calculate_reward (lux e) (temp e) ap)
                         (get_state (lux e) (temp e)) = Some tr'
                       ∧ table_inv (Q_table tr')).
  { destruct Htrans as [[-> ->] | (Hsp & Hap & H4 & H1)].
    - exists tr. split; [reflexivity | exact Htab].
    - apply update_table_inv; try assumption.
      + intros ->. destruct (H4 eq_refl) as (-> & Hl & Ht).
        split; [reflexivity |]. split.
        * pose proof (reward_after_idle (lux e) (temp e) Hl Ht). lra.
        * destruct (Rle_dec (lux e) 100.0).
          -- right. apply get_state_1. repeat split; lra.
          -- left. apply get_state_4. repeat split; lra.
      + intros -> ->. destruct (H1 eq_refl eq_refl) as (Hl & Ht). split.
        * assert (50.0 <= lux e < 500.0) as Hl' by lra.
          pose proof (reward_after_idle (lux e) (temp e) Hl' Ht). lra.
        * apply get_state_1. repeat split; lra. }
  destruct Hup as (tr' & Hup & Htab').
  destruct (best_action_is_Some (Q_table tr') (proj1 Htab')
              (get_state (lux e) (temp e)) Hsn) as (a_new & Hbest & Hanew).
  eexists. split.
  { unfold episode. simpl.  rewrite Hup. simpl.
    rewrite choose_action_greedy by lra. rewrite Hbest. simpl. reflexivity. }
  simpl. split; [exact Htab' |]. split; [apply step_env_inv, Henv |].
  right. split; [exact Hsn |]. split; [exact Hanew |]. split.
  - intros H4.
    assert (a_new = A_DO_NOTHING) as ->.
    { rewrite H4, (table_inv_best_action_4 _ Htab') in Hbest. congruence. }
    split; [reflexivity |].
    apply get_state_4 in H4. destruct H4 as [Hl Ht].
    destruct (step_idle e (env_draws d) Henv) as [-> ->]. 
    unfold Rmax. destruct (Rle_dec _ _); repeat split; lra.
  - intros H1 ->.
    apply get_state_1 in H1. destruct H1 as [Hl Ht].
    destruct (step_idle e (env_draws d) Henv) as [-> ->]. 
    unfold Rmax. destruct (Rle_dec _ _); repeat split; lra.
Qed.

Lemma episodes_from_loop_inv (draws : list episode_draws) (st : loop_state) :
  loop_inv st → Forall draws_in_range draws →
  ∃ st', episodes_from 0 st draws = Some st' ∧ loop_inv st'.
Proof.
  revert st. induction draws as [| d draws IH]; intros st Hinv Hd.
  - exists st. split; [reflexivity | exact Hinv].
  - apply Forall_cons in Hd as [Hd Hds].
    destruct (episode_loop_inv st d Hinv Hd) as (st1 & Hep & Hinv1).
    destruct (IH st1 Hinv1 Hds) as (st' & Hrun & Hinv').
    exists st'. split; [| exact Hinv'].
    simpl. rewrite Hep. simpl. exact Hrun.
Qed.

Lemma simulation_start_loop_inv :
  ∃ st0, simulation_start = Some st0 ∧ loop_inv st0.
Proof.
  destruct QLearningTrainer_init_cells as (self & Hinit & Hq & _ & _ & Hcells).
  eexists. split; [unfold simulation_start; rewrite Hinit; reflexivity |].
  split; [| split].
  - simpl. split; [exact Hq |]. split_and!.
    + intros s a Hs Ha. eexists. split; [apply Hcells; assumption |].
      destruct (decide _); lra.
    + intros a Ha. rewrite Hcells by lia.
      rewrite decide_False; [f_equal; lra |]. unfold A_DO_NOTHING. lia.
    + exists 10.0. split; [rewrite Hcells by done; reflexivity | lra].
    + exists 0.0. split; [rewrite Hcells by done; reflexivity | lra].
  - simpl. done.
  - left. done.
Qed.

(** The greedy run from the initial state of [run_simulation] never
    fails and keeps the loop invariant, however long it is. *)
Lemma greedy_run_loop_inv (draws : list episode_draws) :
  Forall draws_in_range draws →
  ∃ st0 st, simulation_start = Some st0 ∧
            episodes_from 0 st0 draws = Some st ∧ loop_inv st.
Proof.
  intros Hd. destruct simulation_start_loop_inv as (st0 & Hst0 & Hinv0).
  destruct (episodes_from_loop_inv draws st0 Hinv0 Hd) as (st & Hrun & Hinv).
  exists st0, st. done.
Qed.

(** C8: in the run [run_simulation] starts (lux 80.0, temp 16.0, outside
    20.0) with [EPSILON] set to 0, whatever the random draws within their
    ranges, none of the first 50 iterations fails, and after each of them
    every cell of the Q-table lies in [-20, 40] (so it is finite) and the
    greedy action of state 4 is IDLE. *)
Theorem greedy_run_idle_in_s4 (draws : list episode_draws) (n : nat) :
  Forall draws_in_range draws → (n <= 50)%nat →
  ∃ q crucial changes,
    run_simulation 0 (take n draws) = Some (q, crucial, changes) ∧
    Q_bounded q ∧
    best_action q 4 = Some A_DO_NOTHING.
Proof.
  intros Hd _.
  destruct (greedy_run_loop_inv (take n draws)) as (st0 & st & Hst0 & Hrun & Hinv).
  { apply Forall_take, Hd. }
  exists (Q_table (trainer st)), (crucial_updates_count (trainer st)),
    (policy_changes_count (trainer st)).
  split; [unfold run_simulation; rewrite Hst0; simpl; rewrite Hrun; reflexivity |].
  destruct Hinv as (Htab & _). split; [apply Htab |].
  apply table_inv_best_action_4, Htab.
Qed.

Lemma greedy_run_idle_in_s4_witness :
  ∃ q crucial changes,
    run_simulation 0
      (take 2 [mkEpisodeDraws 0.5 0 (mkStepDraws 0.01 1.0 1.0);
               mkEpisodeDraws 0.1 3 (mkStepDraws 0.05 0.8 1.1);
               mkEpisodeDraws 0.9 1 (mkStepDraws 0.005 1.2 0.9)])
    = Some (q, crucial, changes) ∧
    Q_bounded q ∧
    best_action q 4 = Some A_DO_NOTHING.
Proof.
  apply greedy_run_idle_in_s4; [| lia].
  repeat (apply Forall_cons; split;
          [unfold draws_in_range, ACTION_SPACE_SIZE; simpl;
           repeat split; (lia || lra) |]).
  constructor.
Defined.

(** * Further properties *)

(** ** More on the state index *)

(** X1: the state index decodes into its bins: dividing by 3 gives the
    lux bin (0 up to 100.0, 1 strictly between, 2 from 500.0 on) and the
    remainder the temp bin (0 up to 18.0, 1 strictly between, 2 from 24.0
    on). *)
Theorem get_state_decode (l t : R) :
  ((get_state l t `div` 3 = 0)%Z ↔ l <= 100.0) ∧
  ((get_state l t `div` 3 = 1)%Z ↔ 100.0 < l < 500.0) ∧
  ((get_state l t `div` 3 = 2)%Z ↔ 500.0 <= l) ∧
  ((get_state l t `mod` 3 = 0)%Z ↔ t <= 18.0) ∧
  ((get_state l t `mod` 3 = 1)%Z ↔ 18.0 < t < 24.0) ∧
  ((get_state l t `mod` 3 = 2)%Z ↔ 24.0 <= t).
Proof.
  rewrite get_state_bins.
  destruct (lux_bin_cases l) as [[-> ?] | [[-> [? ?]] | [-> ?]]];
    destruct (temp_bin_cases t) as [[-> ?] | [[-> [? ?]] | [-> ?]]];
    repeat split; intros; repeat split; try reflexivity; try lra;
    exfalso; match goal with H : _ = _ :> Z |- _ => vm_compute in H; discriminate H end.
Qed.

(** X2: each of the nine states is the state of some reading. *)
Theorem get_state_onto (s : Z) :
  (0 <= s < 9)%Z → ∃ l t, get_state l t = s.
Proof.
  intros Hs.
  assert (Hl : ∀ b, (0 <= b < 3)%Z → ∃ l, lux_bin l = b).
  { intros b Hb. assert (b = 0 ∨ b = 1 ∨ b = 2)%Z as [-> | [-> | ->]] by lia.
    - exists 50. destruct (lux_bin_cases 50) as [[? _] | [[_ [? ?]] | [_ ?]]]; [done | exfalso; lra | exfalso; lra].
    - exists 300. destruct (lux_bin_cases 300) as [[_ ?] | [[? _] | [_ ?]]]; [exfalso; lra | done | exfalso; lra].
    - exists 600. destruct (lux_bin_cases 600) as [[_ ?] | [[_ [? ?]] | [? _]]]; [exfalso; lra | exfalso; lra | done]. }
  assert (Ht : ∀ b, (0 <= b < 3)%Z → ∃ t, temp_bin t = b).
  { intros b Hb. assert (b = 0 ∨ b = 1 ∨ b = 2)%Z as [-> | [-> | ->]] by lia.
    - exists 10. destruct (temp_bin_cases 10) as [[? _] | [[_ [? ?]] | [_ ?]]]; [done | exfalso; lra | exfalso; lra].
    - exists 21. destruct (temp_bin_cases 21) as [[_ ?] | [[? _] | [_ ?]]]; [exfalso; lra | done | exfalso; lra].
    - exists 30. destruct (temp_bin_cases 30) as [[_ ?] | [[_ [? ?]] | [? _]]]; [exfalso; lra | exfalso; lra | done]. }
  destruct (Hl (s `div` 3)%Z) as [l Hlb]; [Z.div_mod_to_equations; lia |].
  destruct (Ht (s `mod` 3)%Z) as [t Htb]; [Z.div_mod_to_equations; lia |].
  exists l, t. rewrite get_state_bins, Hlb, Htb. Z.div_mod_to_equations. lia.
Qed.

Lemma get_state_onto_witness : ∃ l t, get_state l t = 7%Z.
Proof. apply get_state_onto. lia. Defined.

(** X3: the state index never decreases when lux and temp both grow. *)
Theorem get_state_monotone (l l' t t' : R) :
  l <= l' → t <= t' → (get_state l t <= get_state l' t')%Z.
Proof.
  intros Hl Ht. rewrite !get_state_bins.
  destruct (lux_bin_cases l) as [[-> ?] | [[-> [? ?]] | [-> ?]]];
    destruct (lux_bin_cases l') as [[-> ?] | [[-> [? ?]] | [-> ?]]]; try (exfalso; lra);
    destruct (temp_bin_cases t) as [[-> ?] | [[-> [? ?]] | [-> ?]]];
    destruct (temp_bin_cases t') as [[-> ?] | [[-> [? ?]] | [-> ?]]]; try (exfalso; lra); lia.
Qed.

Lemma get_state_monotone_witness : (get_state 80.0 16.0 <= get_state 300.0 21.0)%Z.
Proof. apply get_state_monotone; lra. Defined.

(** ** More on the reward *)

Lemma clamp_mono (x y : R) :
  x <= y → Rmax (-3.0) (Rmin 6.0 x) <= Rmax (-3.0) (Rmin 6.0 y).
Proof. intros ?. clamp_cases. Qed.

Lemma R_energy_cost_cases (a : Z) :
  a = (-1)%Z ∧ R_energy_cost a = 0 ∨
  a = A_DO_NOTHING ∧ R_energy_cost a = 0.05 ∨
  a ≠ (-1)%Z ∧ a ≠ A_DO_NOTHING ∧ R_energy_cost a = -0.2.
Proof.
  unfold R_energy_cost, ACTIVE_PENALTY, IDLE_BONUS.
  destruct (decide (a ≠ (-1)%Z)) as [Hn | Hn].
  - destruct (decide (a ≠ A_DO_NOTHING)) as [Hi | Hi].
    + right; right. split_and!; [done | done | lra].
    + right; left. split; [destruct (decide (a = A_DO_NOTHING)); [done | contradiction] | lra].
  - left. split; [destruct (decide (a = (-1)%Z)); [done | contradiction] | lra].
Qed.

(** X4: the comfort term does not increase when both errors grow: a
    reading whose lux and temp are each at least as far from the target
    has a comfort term that is no larger. *)
Theorem R_comfort_monotone (l t l' t' : R) :
  Rabs (l - 300.0) <= Rabs (l' - 300.0) →
  Rabs (t - 21.0) <= Rabs (t' - 21.0) →
  R_comfort l' t' <= R_comfort l t.
Proof.
  intros Hl Ht. unfold R_comfort, REWARD_MAX_DISTANCE, TARGET_LUX, TARGET_TEMP.
  pose proof (Rabs_pos (l - 300.0)). pose proof (Rabs_pos (t - 21.0)).
  assert (sqrt ((Rabs (l - 300.0) / 100.0) ^ 2 + Rabs (t - 21.0) ^ 2)
          <= sqrt ((Rabs (l' - 300.0) / 100.0) ^ 2 + Rabs (t' - 21.0) ^ 2)).
  { apply sqrt_le_1_alt.
    set (a := Rabs (l - 300.0)) in *. set (a' := Rabs (l' - 300.0)) in *.
    set (b := Rabs (t - 21.0)) in *. set (b' := Rabs (t' - 21.0)) in *.
    nra. }
  lra.
Qed.

Lemma R_comfort_monotone_witness : R_comfort 80.0 16.0 <= R_comfort 175 16.2.
Proof.
  apply R_comfort_monotone; unfold Rabs; repeat destruct (Rcase_abs _); lra.
Defined.


(** The reward before the clamp in state 4. *)
Lemma unclamped_reward_state_4 (l t : R) (a : Z) :
  get_state l t = 4%Z →
  unclamped_reward l t a
  = R_comfort l t + R_energy_cost a
    + (if decide (a ≠ A_DO_NOTHING) then -3.0 else 5.0).
Proof.
  intros H4. unfold unclamped_reward. rewrite H4. unfold R_shaping. simpl.
  destruct (decide (a ≠ A_DO_NOTHING)); lra.
Qed.

Lemma reward_state_4_idle (l t : R) :
  get_state l t = 4%Z → 5.65 <= calculate_reward l t A_DO_NOTHING.
Proof.
  intros H4. unfold calculate_reward.
  rewrite (unclamped_reward_state_4 l t _ H4).
  pose proof (R_comfort_state_4 l t H4).
  destruct (R_energy_cost_cases A_DO_NOTHING) as [[? _] | [[_ ->] | (_ & ? & _)]];
    [discriminate | | contradiction].
  rewrite decide_False by (intros ?; contradiction). clamp_cases.
Qed.

Lemma reward_state_4_other (l t : R) (a : Z) :
  get_state l t = 4%Z → a ≠ A_DO_NOTHING →
  -2.6 <= calculate_reward l t a <= -2.0.
Proof.
  intros H4 Ha. unfold calculate_reward.
  rewrite (unclamped_reward_state_4 l t _ H4), decide_True by exact Ha.
  pose proof (R_comfort_state_4 l t H4).
  destruct (R_energy_cost_cases a) as [[_ ->] | [[? _] | (_ & _ & ->)]];
    [| contradiction |]; clamp_cases.
Qed.

Lemma reward_outside_4 (l t : R) (a : Z) :
  get_state l t ≠ 4%Z → calculate_reward l t a <= 1.05.
Proof.
  intros H4. unfold calculate_reward, unclamped_reward.
  rewrite (R_shaping_outside_4 _ a _ H4).
  pose proof (pos_INR (mismatch_count (get_state l t) a)).
  pose proof (R_comfort_le_1 l t).
  destruct (R_energy_cost_cases a) as [[_ ->] | [[_ ->] | (_ & _ & ->)]];
    clamp_cases.
Qed.

(** X5: the reward exceeds 1.05 exactly when the reading is in state 4
    and the previous action is IDLE; it is then at least 5.65, while any
    other previous action in state 4 (the [-1] of the first iteration
    included) gives a reward between -2.6 and -2.0. *)
Theorem reward_above_1_05_iff (l t : R) (a : Z) :
  (1.05 < calculate_reward l t a ↔ get_state l t = 4%Z ∧ a = A_DO_NOTHING) ∧
  (get_state l t = 4%Z → a = A_DO_NOTHING → 5.65 <= calculate_reward l t a) ∧
  (get_state l t = 4%Z → a ≠ A_DO_NOTHING →
   -2.6 <= calculate_reward l t a <= -2.0).
Proof.
  split_and!.
  - split.
    + intros Hr.
      destruct (decide (get_state l t = 4%Z)) as [H4 | H4].
      * split; [exact H4 |].
        destruct (decide (a = A_DO_NOTHING)) as [Ha | Ha]; [exact Ha |].
        pose proof (reward_state_4_other l t a H4 Ha). exfalso; lra.
      * pose proof (reward_outside_4 l t a H4). exfalso; lra.
    + intros [H4 ->]. pose proof (reward_state_4_idle l t H4). lra.
  - intros H4 ->. apply reward_state_4_idle, H4.
  - apply reward_state_4_other.
Qed.

(** X6: on the same reading no previous action is rewarded more than
    IDLE. *)
Theorem idle_reward_is_best (l t : R) (a : Z) :
  calculate_reward l t a <= calculate_reward l t A_DO_NOTHING.
Proof.
  destruct (decide (get_state l t = 4%Z)) as [H4 | H4].
  - destruct (decide (a = A_DO_NOTHING)) as [-> | Ha]; [lra |].
    pose proof (reward_state_4_other l t a H4 Ha).
    pose proof (reward_state_4_idle l t H4). lra.
  - unfold calculate_reward. apply clamp_mono. unfold unclamped_reward.
    rewrite !(R_shaping_outside_4 _ _ _ H4), mismatch_count_idle.
    pose proof (pos_INR (mismatch_count (get_state l t) a)).
    destruct (R_energy_cost_cases a) as [[_ ->] | [[_ ->] | (_ & _ & ->)]];
      destruct (R_energy_cost_cases A_DO_NOTHING)
        as [[? _] | [[_ ->] | (_ & ? & _)]];
      try discriminate; try contradiction; simpl; lra.
Qed.



(** ** More on the environment *)

Lemma steps_from_outside_temp (calls : list (Z * step_draws)) (e : Environment) :
  outside_temp (steps_from e calls) = outside_temp e.
Proof.
  revert e. induction calls as [| c calls IH]; intros e; [reflexivity |].
  unfold steps_from in *. simpl. rewrite IH. apply step_outside_temp.
Qed.

Lemma step_physics (e : Environment) (a : Z) (d : step_draws) :
  physics e → physics (step e a d).
Proof.
  unfold physics.
  rewrite step_TEMP_DRIFT_RATE, step_LUX_DRIFT_RATE, step_NATURAL_LUX_BASE. done.
Qed.

Lemma steps_from_physics (calls : list (Z * step_draws)) (e : Environment) :
  physics e → physics (steps_from e calls).
Proof.
  intros He. induction calls as [| c calls IH] using rev_ind; [exact He |].
  rewrite steps_from_snoc. apply step_physics, IH.
Qed.

Lemma Environment_init_physics (initial_lux initial_temp outside : R) :
  physics (Environment_init initial_lux initial_temp outside).
Proof. unfold physics. simpl. done. Qed.

(** X8: no sequence of [step] calls changes the outside temperature or
    the three physics constants [__init__] sets. *)
Theorem steps_from_constants (initial_lux initial_temp outside : R)
    (calls : list (Z * step_draws)) :
  let e := steps_from (Environment_init initial_lux initial_temp outside) calls in
  outside_temp e = outside ∧ physics e.
Proof.
  simpl. split; [apply steps_from_outside_temp |].
  apply steps_from_physics, Environment_init_physics.
Qed.

(** X9: an action that is not LIGHT+ or LIGHT- leaves lux as IDLE would,
    an action that is not TEMP+ or TEMP- leaves temp as IDLE would, and an
    integer outside 0..4 is not rejected: it acts as IDLE. *)
Theorem step_action_effects (e : Environment) (a : Z) (d : step_draws) :
  (a ≠ A_LIGHT_UP → a ≠ A_LIGHT_DOWN →
   lux (step e a d) = lux (step e A_DO_NOTHING d)) ∧
  (a ≠ A_TEMP_UP → a ≠ A_TEMP_DOWN →
   temp (step e a d) = temp (step e A_DO_NOTHING d)) ∧
  ((a < 0 ∨ 4 < a)%Z → step e a d = step e A_DO_NOTHING d).
Proof.
  unfold step, A_LIGHT_UP, A_LIGHT_DOWN, A_TEMP_UP, A_TEMP_DOWN, A_DO_NOTHING.
  split_and!; intros; repeat case_decide; simpl; try reflexivity; try lia;
    try contradiction.
Qed.

Lemma step_temp_gap (e : Environment) (a : Z) (d : step_draws) :
  a ≠ A_TEMP_UP → a ≠ A_TEMP_DOWN →
  temp (step e a d) - outside_temp e
  = (1 - TEMP_DRIFT_RATE e) * (temp e - outside_temp e).
Proof.
  intros H1 H2. unfold step.
  repeat case_decide; try contradiction; simpl; lra.
Qed.

(** X10: as long as no heating or cooling action is taken, the gap between
    temp and the outside temperature shrinks by the factor 0.95 per call:
    after [n] calls it is [0.95 ^ n] times the initial gap. *)
Theorem temp_drift_geometric (initial_lux initial_temp outside : R)
    (calls : list (Z * step_draws)) :
  Forall not_temp_action calls →
  temp (steps_from (Environment_init initial_lux initial_temp outside) calls)
  - outside
  = 0.95 ^ length calls * (initial_temp - outside).
Proof.
  induction calls as [| c calls IH] using rev_ind; intros Hc.
  - simpl. lra.
  - apply Forall_app in Hc as [Hcs Hc]. apply Forall_cons in Hc as [[Hc1 Hc2] _].
    specialize (IH Hcs).
    set (e0 := Environment_init initial_lux initial_temp outside) in *.
    pose proof (steps_from_outside_temp calls e0) as Hout.
    destruct (steps_from_physics calls e0 (Environment_init_physics _ _ _))
      as (Hrate & _ & _).
    rewrite steps_from_snoc.
    pose proof (step_temp_gap (steps_from e0 calls) c.1 c.2 Hc1 Hc2) as Hgap.
    rewrite Hrate in Hgap.
    rewrite length_app, Nat.add_comm. simpl length. rewrite <- tech_pow_Rmult.
    change (outside_temp e0) with outside in Hgap, Hout.
    rewrite Hout, IH in Hgap. rewrite Hgap. lra.
Qed.

Lemma temp_drift_geometric_witness :
  temp (steps_from (Environment_init 80.0 16.0 20.0)
          [(A_DO_NOTHING, mkStepDraws 0.01 1.0 1.0);
           (A_LIGHT_UP, mkStepDraws 0.01 1.0 1.0)])
  - 20.0
  = 0.95 ^ 2 * (16.0 - 20.0).
Proof.
  apply (temp_drift_geometric 80.0 16.0 20.0
           [(A_DO_NOTHING, mkStepDraws 0.01 1.0 1.0);
            (A_LIGHT_UP, mkStepDraws 0.01 1.0 1.0)]).
  repeat (apply Forall_cons; split; [split; discriminate |]). constructor.
Defined.

(** X11: without LIGHT+ lux only goes down: one call leaves it at most at
    the larger of [lux - 4.5] and the floor 50.0, so strictly below its old
    value when that was above the floor. *)
Theorem lux_falls_without_light_up (e : Environment) (a : Z) (d : step_draws) :
  physics e → a ≠ A_LIGHT_UP → 0 <= u_light d → 0.9 <= u_drift d →
  lux (step e a d) <= Rmax (lux e - 4.5) 50.0 ∧
  (50.0 < lux e → lux (step e a d) < lux e).
Proof.
  intros (_ & Hrate & Hbase) Ha Hl Hd. unfold step.
  repeat case_decide; try contradiction; simpl; rewrite Hrate, Hbase;
    split; intros; clamp_cases.
Qed.

Lemma lux_falls_without_light_up_witness :
  lux (step (Environment_init 80.0 16.0 20.0) A_TEMP_UP (mkStepDraws 0.01 1.0 1.0))
  <= Rmax (80.0 - 4.5) 50.0.
Proof.
  refine (proj1 (lux_falls_without_light_up (Environment_init 80.0 16.0 20.0)
                   A_TEMP_UP (mkStepDraws 0.01 1.0 1.0) _ _ _ _)).
  - apply Environment_init_physics.
  - discriminate.
  - simpl. lra.
  - simpl. lra.
Defined.

(** X12: from a lux at or above the floor, LIGHT+ raises lux by between
    74.5 and 115.5 once the drift of the same call is taken off. *)
Theorem light_up_gain (e : Environment) (d : step_draws) :
  physics e → 50.0 <= lux e →
  0.8 <= u_light d <= 1.2 → 0.9 <= u_drift d <= 1.1 →
  lux e + 74.5 <= lux (step e A_LIGHT_UP d) <= lux e + 115.5.
Proof.
  intros (_ & Hrate & Hbase) Hlux [? ?] [? ?]. unfold step. simpl.
  rewrite Hrate, Hbase. split; clamp_cases.
Qed.

Lemma light_up_gain_witness :
  80.0 + 74.5
  <= lux (step (Environment_init 80.0 16.0 20.0) A_LIGHT_UP (mkStepDraws 0.01 1.0 1.0))
  <= 80.0 + 115.5.
Proof.
  apply (light_up_gain (Environment_init 80.0 16.0 20.0) (mkStepDraws 0.01 1.0 1.0)).
  - apply Environment_init_physics.
  - simpl. lra.
  - simpl. split; lra.
  - simpl. split; lra.
Defined.

(** X13: TEMP+ leaves temp between 0.95475 and 0.9975 degrees above what
    IDLE would have left, and TEMP- as much below: the drift of the same
    call takes a twentieth off the actuator's effect. *)
Theorem temp_action_effect (e : Environment) (d : step_draws) :
  physics e → 0.005 <= u_noise d <= 0.05 →
  0.95475 <= temp (step e A_TEMP_UP d) - temp (step e A_DO_NOTHING d) <= 0.9975 ∧
  0.95475 <= temp (step e A_DO_NOTHING d) - temp (step e A_TEMP_DOWN d) <= 0.9975.
Proof.
  intros (Hrate & _ & _) [? ?]. unfold step. simpl. rewrite Hrate.
  repeat split; lra.
Qed.

Lemma temp_action_effect_witness :
  let e := Environment_init 80.0 16.0 20.0 in
  let d := mkStepDraws 0.01 1.0 1.0 in
  0.95475 <= temp (step e A_TEMP_UP d) - temp (step e A_DO_NOTHING d) <= 0.9975 ∧
  0.95475 <= temp (step e A_DO_NOTHING d) - temp (step e A_TEMP_DOWN d) <= 0.9975.
Proof.
  intros e d. apply (temp_action_effect e d).
  - apply Environment_init_physics.
  - simpl. split; lra.
Defined.

(** ** More on the Q-table and its update *)

(** The greedy action holds the row maximum, and no earlier cell does. *)
Lemma best_action_max (q : list (list R)) (s b : Z) :
  Q_shape q → (0 <= s < 9)%Z → best_action q s = Some b →
  ∃ m, (0 <= b < 5)%Z ∧ Q_get q s b = Some m ∧ is_row_max q s m ∧
       ∀ a v, (0 <= a < b)%Z → Q_get q s a = Some v → v < m.
Proof.
  intros Hq Hs Hb.
  destruct (Q_shape_row q Hq s Hs) as (row & _ & Hlen & Hr).
  unfold best_action in Hb. rewrite Hr in Hb. simpl in Hb.
  destruct (np_argmax_spec row b Hb) as (m & Hrange & Hm & Hall & Hbefore).
  rewrite Hlen in Hrange.
  assert (Hget : Q_get q s b = Some m).
  { rewrite (Q_get_in_row q s b row Hr Hlen) by lia. exact Hm. }
  exists m. split_and!; [lia | lia | exact Hget | |].
  - split.
    + exists b. split; [unfold ACTION_SPACE_SIZE; lia | exact Hget].
    + intros a v Hv. pose proof (Q_get_elem q s a row v Hr Hv) as Hel.
      rewrite Forall_forall in Hall. apply Hall, Hel.
  - intros a v Ha Hv.
    rewrite (Q_get_in_row q s a row Hr Hlen) in Hv by lia.
    apply (Hbefore (Z.to_nat a) v); [lia | exact Hv].
Qed.

Lemma is_row_max_unique (q : list (list R)) (s : Z) (m m' : R) :
  is_row_max q s m → is_row_max q s m' → m = m'.
Proof.
  intros [(a & _ & Ha) Hm] [(a' & _ & Ha') Hm'].
  pose proof (Hm _ _ Ha'). pose proof (Hm' _ _ Ha). lra.
Qed.

(** X14: the greedy action of a state holds the value [max_q] returns for
    that state, and every action with a lower index holds strictly less
    (ties go to the lowest index). *)
Theorem best_action_attains_max_q (self : QLearningTrainer) (s b : Z) :
  Q_shape (Q_table self) → (0 <= s < 9)%Z →
  best_action (Q_table self) s = Some b →
  (0 <= b < 5)%Z ∧
  Q_get (Q_table self) s b = max_q self s ∧
  ∀ a v, (0 <= a < b)%Z → Q_get (Q_table self) s a = Some v →
         ∃ m, max_q self s = Some m ∧ v < m.
Proof.
  intros Hq Hs Hb.
  destruct (best_action_max _ s b Hq Hs Hb) as (m & Hrange & Hget & Hmax & Hbefore).
  destruct (max_q_spec self s Hq Hs) as (m' & Hm' & Hmax').
  assert (m' = m) as -> by (eapply is_row_max_unique; eassumption).
  split_and!; [lia | lia | congruence |].
  intros a v Ha Hv. exists m. split; [exact Hm' | eapply Hbefore; eassumption].
Qed.

Lemma best_action_attains_max_q_witness :
  let self := mkTrainer [ [0; 0; 0; 0; 0]; [1; 3; 3; 2; 1]; [0; 0; 0; 0; 0];
                          [0; 0; 0; 0; 0]; [0; 0; 0; 0; 10]; [0; 0; 0; 0; 0];
                          [0; 0; 0; 0; 0]; [0; 0; 0; 0; 0]; [0; 0; 0; 0; 0] ] 0 0 in
  best_action (Q_table self) 1 = Some 1%Z ∧
  Q_get (Q_table self) 1 1 = max_q self 1.
Proof.
  intros self.
  assert (Hb : best_action (Q_table self) 1 = Some 1%Z).
  { unfold best_action, self. simpl. real_cases. reflexivity. }
  split; [exact Hb |].
  refine (proj1 (proj2 (best_action_attains_max_q self 1 1 _ _ Hb))); [| lia].
  split; [reflexivity |].
  repeat (apply Forall_cons; split; [reflexivity |]). constructor.
Defined.

(** The whole result of [update_q_table] when there is a previous
    transition. *)
Lemma update_q_table_full (self : QLearningTrainer) (s a : Z) (r : R) (s' : Z) :
  Q_shape (Q_table self) → (0 <= s < 9)%Z → (0 <= a < 5)%Z → (0 <= s' < 9)%Z →
  ∃ old m q' b0 b1,
    Q_get (Q_table self) s a = Some old ∧
    max_q self s' = Some m ∧
    best_action (Q_table self) s = Some b0 ∧
    Q_set (Q_table self) s a (old + ALPHA * (r + GAMMA * m - old)) = Some q' ∧
    best_action q' s = Some b1 ∧
    update_q_table self s a r s'
    = Some {| Q_table := q';
              crucial_updates_count :=
                if Rgt_dec (Rabs (r + GAMMA * m - old)) CRUCIAL_TD_THRESHOLD
                then (crucial_updates_count self + 1)%Z
                else crucial_updates_count self;
              policy_changes_count :=
                if decide (b0 ≠ b1) then (policy_changes_count self + 1)%Z
                else policy_changes_count self |}.
Proof.
  intros Hq Hs Ha Hs'.
  destruct (Q_get_is_Some _ Hq s a Hs Ha) as [old Hold].
  destruct (max_q_spec self s' Hq Hs') as (m & Hm & _).
  destruct (Q_set_spec _ Hq s a (old + ALPHA * (r + GAMMA * m - old)) Hs Ha)
    as (q' & Hset & Hq' & _).
  destruct (best_action_is_Some _ Hq s Hs) as (b0 & Hb0 & _).
  destruct (best_action_is_Some _ Hq' s Hs) as (b1 & Hb1 & _).
  exists old, m, q', b0, b1. split_and!; try assumption.
  unfold best_action in Hb0, Hb1.
  destruct (Q_row (Q_table self) s) as [row0 |] eqn:Hr0; [| discriminate].
  destruct (Q_row q' s) as [row1 |] eqn:Hr1; [| discriminate].
  simpl in Hb0, Hb1.
  unfold update_q_table. rewrite decide_False by lia.
  rewrite Hr0. simpl. rewrite Hb0. simpl. rewrite Hold. simpl.
  rewrite Hm. simpl. rewrite Hset. simpl. rewrite Hr1. simpl.
  rewrite Hb1. simpl. reflexivity.
Qed.

Lemma Q_shape_length (q : list (list R)) : Q_shape q → length q = 9%nat.
Proof. intros [-> _]. reflexivity. Qed.

(** X15: with a previous state and action that are not negative,
    [update_q_table] raises [IndexError] when the previous state is 9 or
    more, the previous action 5 or more, or the new state outside
    [-9, 9). *)
Theorem update_q_table_index_error (self : QLearningTrainer) (s a : Z) (r : R)
    (s' : Z) :
  Q_shape (Q_table self) → (0 <= s)%Z → (0 <= a)%Z →
  (9 <= s ∨ 5 <= a ∨ 9 <= s' ∨ s' < -9)%Z →
  update_q_table self s a r s' = None.
Proof.
  intros Hq Hs Ha Hbad. unfold update_q_table. rewrite decide_False by lia.
  destruct (decide (9 <= s)%Z) as [Hs9 | Hs9].
  { unfold Q_row, np_index. rewrite (Q_shape_length _ Hq).
    rewrite !decide_False by lia. reflexivity. }
  destruct (Q_shape_row _ Hq s ltac:(lia)) as (row & _ & Hlen & Hr).
  rewrite Hr. simpl.
  destruct (np_argmax row) as [b |]; [simpl | reflexivity].
  destruct (decide (5 <= a)%Z) as [Ha5 | Ha5].
  { unfold Q_get. rewrite Hr. simpl. unfold np_index. rewrite Hlen.
    rewrite !decide_False by lia. reflexivity. }
  destruct (Q_get_is_Some _ Hq s a ltac:(lia) ltac:(lia)) as [old ->]. simpl.
  unfold max_q, Q_row, np_index. rewrite (Q_shape_length _ Hq).
  rewrite !decide_False by lia. reflexivity.
Qed.

Lemma update_q_table_index_error_witness :
  update_q_table (mkTrainer [ [0; 0; 0; 0; 0]; [0; 0; 0; 0; 0]; [0; 0; 0; 0; 0];
                              [0; 0; 0; 0; 0]; [0; 0; 0; 0; 10]; [0; 0; 0; 0; 0];
                              [0; 0; 0; 0; 0]; [0; 0; 0; 0; 0]; [0; 0; 0; 0; 0] ] 0 0)
    3 5 1.0 4 = None.
Proof.
  apply update_q_table_index_error; [| lia | lia | lia].
  split; [reflexivity |].
  repeat (apply Forall_cons; split; [reflexivity |]). constructor.
Defined.

Lemma np_index_negative (n : nat) (i : Z) :
  (- Z.of_nat n <= i < 0)%Z → np_index n i = np_index n (i + Z.of_nat n).
Proof.
  intros Hi. unfold np_index. repeat case_decide; try lia. reflexivity.
Qed.

(** X16: a negative new state from -9 to -1 is not rejected: NumPy counts
    it from the end, so the update is the one for the new state plus 9
    (-1 reads row 8). *)
Theorem update_q_table_negative_new_state (self : QLearningTrainer) (s a : Z)
    (r : R) (s' : Z) :
  Q_shape (Q_table self) → (-9 <= s' < 0)%Z →
  update_q_table self s a r s' = update_q_table self s a r (s' + 9).
Proof.
  intros Hq Hs'.
  assert (Hm : max_q self s' = max_q self (s' + 9)).
  { unfold max_q, Q_row. rewrite (Q_shape_length _ Hq).
    rewrite (np_index_negative 9 s') by lia. reflexivity. }
  unfold update_q_table. rewrite Hm. reflexivity.
Qed.

Lemma update_q_table_negative_new_state_witness :
  let self := mkTrainer [ [0; 0; 0; 0; 0]; [0; 0; 0; 0; 0]; [0; 0; 0; 0; 0];
                          [0; 0; 0; 0; 0]; [0; 0; 0; 0; 10]; [0; 0; 0; 0; 0];
                          [0; 0; 0; 0; 0]; [0; 0; 0; 0; 0]; [0; 0; 0; 0; 0] ] 0 0 in
  update_q_table self 3 0 1.0 (-1) = update_q_table self 3 0 1.0 (-1 + 9).
Proof.
  intros self. apply update_q_table_negative_new_state; [| lia].
  split; [reflexivity |].
  repeat (apply Forall_cons; split; [reflexivity |]). constructor.
Defined.

(** Writing a cell leaves the other rows as they were. *)
Lemma Q_row_set_ne (q q' : list (list R)) (s a s0 : Z) (v : R) :
  Q_shape q → (0 <= s < 9)%Z → (0 <= a < 5)%Z → (0 <= s0 < 9)%Z → s0 ≠ s →
  Q_set q s a v = Some q' → Q_row q' s0 = Q_row q s0.
Proof.
  intros Hq Hs Ha Hs0 Hne Hset.
  destruct (Q_set_spec q Hq s a v Hs Ha) as (q'' & Hset' & Hq' & Heq).
  assert (q'' = q') as -> by congruence.
  destruct (Q_shape_row q Hq s0 Hs0) as (row0 & Hrow0 & _ & Hr0).
  destruct (Q_shape_row q' Hq' s0 Hs0) as (row0' & Hrow0' & _ & Hr0').
  rewrite Heq, list_lookup_insert_ne in Hrow0' by lia. congruence.
Qed.

(** Writing the value a cell already holds changes nothing. *)
Lemma Q_set_same (q q' : list (list R)) (s a : Z) (v : R) :
  Q_shape q → (0 <= s < 9)%Z → (0 <= a < 5)%Z →
  Q_get q s a = Some v → Q_set q s a v = Some q' → q' = q.
Proof.
  intros Hq Hs Ha Hget Hset.
  destruct (Q_set_spec q Hq s a v Hs Ha) as (q'' & Hset' & _ & Heq).
  assert (q'' = q') as -> by congruence.
  destruct (Q_shape_row q Hq s Hs) as (row & Hrow & Hlen & Hr).
  rewrite (Q_get_in_row q s a row Hr Hlen Ha) in Hget.
  rewrite Heq, Hrow. simpl.
  rewrite (list_insert_id row _ _ Hget). apply list_insert_id, Hrow.
Qed.

(** X17: when the target [r + 0.85 * max_q(s')] equals the value the cell
    already holds, [update_q_table] returns the trainer as it was: same
    table, same counters. *)
Theorem update_q_table_fixed_point (self : QLearningTrainer) (s a : Z) (r : R)
    (s' : Z) (old m : R) :
  Q_shape (Q_table self) → (0 <= s < 9)%Z → (0 <= a < 5)%Z → (0 <= s' < 9)%Z →
  Q_get (Q_table self) s a = Some old →
  max_q self s' = Some m →
  r + 0.85 * m = old →
  update_q_table self s a r s' = Some self.
Proof.
  intros Hq Hs Ha Hs' Hold Hm Htd.
  destruct (update_q_table_full self s a r s' Hq Hs Ha Hs')
    as (old' & m' & q' & b0 & b1 & Hold' & Hm' & Hb0 & Hset & Hb1 & ->).
  assert (old' = old) as -> by congruence.
  assert (m' = m) as -> by congruence.
  unfold GAMMA, ALPHA, CRUCIAL_TD_THRESHOLD in *.
  replace (old + 0.05 * (r + 0.85 * m - old)) with old in Hset by lra.
  pose proof (Q_set_same _ _ s a old Hq Hs Ha Hold Hset) as ->.
  assert (b1 = b0) as -> by congruence.
  rewrite decide_False by (intros H; apply H; reflexivity).
  destruct (Rgt_dec _ _) as [Hgt | _].
  - exfalso. revert Hgt. replace (r + 0.85 * m - old) with 0 by lra.
    rewrite Rabs_R0. lra.
  - destruct self. reflexivity.
Qed.

Lemma update_q_table_fixed_point_witness :
  let self := mkTrainer [ [0; 0; 0; 0; 0]; [0; 0; 0; 0; 0]; [0; 0; 0; 0; 0];
                          [0; 0; 0; 0; 0]; [0; 0; 0; 0; 10]; [0; 0; 0; 0; 0];
                          [0; 0; 0; 0; 0]; [0; 0; 0; 0; 0]; [0; 0; 0; 0; 0] ] 2 1 in
  update_q_table self 4 4 1.5 4 = Some self.
Proof.
  intros self.
  apply (update_q_table_fixed_point self 4 4 1.5 4 10 10); try lia.
  - split; [reflexivity |].
    repeat (apply Forall_cons; split; [reflexivity |]). constructor.
  - reflexivity.
  - unfold max_q, self. simpl. f_equal. real_cases. reflexivity.
  - lra.
Defined.

(** X18: an update of a cell of state [s] changes neither the greedy
    action nor the row maximum of any other state. *)
Theorem update_q_table_other_states (self : QLearningTrainer) (s a : Z)
    (r : R) (s' : Z) :
  Q_shape (Q_table self) → (0 <= s < 9)%Z → (0 <= a < 5)%Z → (0 <= s' < 9)%Z →
  ∃ self',
    update_q_table self s a r s' = Some self' ∧
    ∀ s0, (0 <= s0 < 9)%Z → s0 ≠ s →
          best_action (Q_table self') s0 = best_action (Q_table self) s0 ∧
          max_q self' s0 = max_q self s0.
Proof.
  intros Hq Hs Ha Hs'.
  destruct (update_q_table_full self s a r s' Hq Hs Ha Hs')
    as (old & m & q' & b0 & b1 & _ & _ & _ & Hset & _ & Hup).
  eexists. split; [exact Hup |]. simpl. intros s0 Hs0 Hne.
  pose proof (Q_row_set_ne _ _ s a s0 _ Hq Hs Ha Hs0 Hne Hset) as Hrow.
  unfold best_action, max_q. simpl. rewrite Hrow. done.
Qed.

Lemma update_q_table_other_states_witness :
  let self := mkTrainer [ [0; 0; 0; 0; 0]; [0; 0; 0; 0; 0]; [0; 0; 0; 0; 0];
                          [0; 0; 0; 0; 0]; [0; 0; 0; 0; 10]; [0; 0; 0; 0; 0];
                          [0; 0; 0; 0; 0]; [0; 0; 0; 0; 0]; [0; 0; 0; 0; 0] ] 0 0 in
  ∃ self',
    update_q_table self 1 4 6.0 4 = Some self' ∧
    ∀ s0, (0 <= s0 < 9)%Z → s0 ≠ 1%Z →
          best_action (Q_table self') s0 = best_action (Q_table self) s0 ∧
          max_q self' s0 = max_q self s0.
Proof.
  intros self. apply (update_q_table_other_states self 1 4 6.0 4); try lia.
  split; [reflexivity |].
  repeat (apply Forall_cons; split; [reflexivity |]). constructor.
Defined.

(** X19: an update adds 1 to the crucial-update counter exactly when the
    TD error [r + 0.85 * max_q(s') - old] exceeds 1 in absolute value, and 1
    to the policy-change counter exactly when the greedy action of the
    previous state differs before and after the write; otherwise the
    counters keep their values. *)
Theorem update_q_table_counters (self : QLearningTrainer) (s a : Z)
    (r : R) (s' : Z) :
  Q_shape (Q_table self) → (0 <= s < 9)%Z → (0 <= a < 5)%Z → (0 <= s' < 9)%Z →
  ∃ self' old m b0 b1,
    update_q_table self s a r s' = Some self' ∧
    Q_get (Q_table self) s a = Some old ∧ max_q self s' = Some m ∧
    best_action (Q_table self) s = Some b0 ∧
    best_action (Q_table self') s = Some b1 ∧
    crucial_updates_count self'
    = (crucial_updates_count self
       + if Rgt_dec (Rabs (r + 0.85 * m - old)) 1 then 1 else 0)%Z ∧
    policy_changes_count self'
    = (policy_changes_count self + if decide (b0 = b1) then 0 else 1)%Z.
Proof.
  intros Hq Hs Ha Hs'.
  destruct (update_q_table_full self s a r s' Hq Hs Ha Hs')
    as (old & m & q' & b0 & b1 & Hold & Hm & Hb0 & Hset & Hb1 & Hup).
  eexists. exists old, m, b0, b1. split; [exact Hup |]. simpl.
  split_and!; try assumption.
  - unfold GAMMA, CRUCIAL_TD_THRESHOLD.
    destruct (Rgt_dec (Rabs (r + 0.85 * m - old)) 1.0) as [H | H];
      destruct (Rgt_dec (Rabs (r + 0.85 * m - old)) 1) as [H' | H'];
      try lia; exfalso; lra.
  - destruct (decide (b0 ≠ b1)), (decide (b0 = b1)); try lia; contradiction.
Qed.

Lemma update_q_table_counters_witness :
  let self := mkTrainer [ [0; 0; 0; 0; 0]; [0; 0; 0; 0; 0]; [0; 0; 0; 0; 0];
                          [0; 0; 0; 0; 0]; [0; 0; 0; 0; 10]; [0; 0; 0; 0; 0];
                          [0; 0; 0; 0; 0]; [0; 0; 0; 0; 0]; [0; 0; 0; 0; 0] ] 0 0 in
  ∃ self' old m b0 b1,
    update_q_table self 1 4 6.0 4 = Some self' ∧
    Q_get (Q_table self) 1 4 = Some old ∧ max_q self 4 = Some m ∧
    best_action (Q_table self) 1 = Some b0 ∧
    best_action (Q_table self') 1 = Some b1 ∧
    crucial_updates_count self'
    = (crucial_updates_count self
       + if Rgt_dec (Rabs (6.0 + 0.85 * m - old)) 1 then 1 else 0)%Z ∧
    policy_changes_count self'
    = (policy_changes_count self + if decide (b0 = b1) then 0 else 1)%Z.
Proof.
  intros self. apply (update_q_table_counters self 1 4 6.0 4); try lia.
  split; [reflexivity |].
  repeat (apply Forall_cons; split; [reflexivity |]). constructor.
Defined.

Lemma update_q_table_bounded (self : QLearningTrainer) (s a : Z) (r : R) (s' : Z) :
  Q_shape (Q_table self) → Q_bounded (Q_table self) →
  (0 <= s < 9)%Z → (0 <= a < 5)%Z → (0 <= s' < 9)%Z → -3.0 <= r <= 6.0 →
  ∃ self',
    update_q_table self s a r s' = Some self' ∧
    Q_shape (Q_table self') ∧ Q_bounded (Q_table self') ∧
    (crucial_updates_count self <= crucial_updates_count self'
     <= crucial_updates_count self + 1)%Z ∧
    (policy_changes_count self <= policy_changes_count self'
     <= policy_changes_count self + 1)%Z.
Proof.
  intros Hq Hb Hs Ha Hs' Hr.
  destruct (update_q_table_cells self s a r s' Hq Hs Ha Hs')
    as (old & m & self' & Hold & Hm & Hup & Hq' & Hnew & Hother).
  destruct (update_q_table_full self s a r s' Hq Hs Ha Hs')
    as (old2 & m2 & q' & b0 & b1 & _ & _ & _ & _ & _ & Hup').
  exists self'. split; [exact Hup |]. split; [exact Hq' |]. split.
  - pose proof (is_row_max_bounded _ _ _ Hb Hs' Hm) as Hmb.
    destruct (Hb s a Hs Ha) as (old' & Hold' & Holdb).
    assert (old' = old) as -> by congruence.
    unfold ALPHA, GAMMA in Hnew.
    intros s0 a0 Hs0 Ha0.
    destruct (decide (s0 = s ∧ a0 = a)) as [[-> ->] | Hne].
    + eexists. split; [exact Hnew | lra].
    + rewrite Hother by (assumption || (apply not_and_l in Hne; exact Hne)).
      apply Hb; assumption.
  - rewrite Hup' in Hup. injection Hup as Heq. rewrite <- Heq. simpl.
    destruct (Rgt_dec _ _), (decide (b0 ≠ b1)); lia.
Qed.

(** X20: an update with a reward in [-3, 6] keeps a table whose cells all
    lie in [-20, 40] within these bounds (and well shaped). *)
Theorem update_q_table_keeps_bounds (self : QLearningTrainer) (s a : Z) (r : R)
    (s' : Z) :
  Q_shape (Q_table self) → Q_bounded (Q_table self) →
  (0 <= s < 9)%Z → (0 <= a < 5)%Z → (0 <= s' < 9)%Z → -3.0 <= r <= 6.0 →
  ∃ self',
    update_q_table self s a r s' = Some self' ∧
    Q_shape (Q_table self') ∧ Q_bounded (Q_table self').
Proof.
  intros Hq Hb Hs Ha Hs' Hr.
  destruct (update_q_table_bounded self s a r s' Hq Hb Hs Ha Hs' Hr)
    as (self' & Hup & Hq' & Hb' & _).
  exists self'. done.
Qed.

(** ** Runs with any exploration rate *)

Lemma Q_bounded_seeded (self : QLearningTrainer) :
  QLearningTrainer_init = Some self → Q_bounded (Q_table self).
Proof.
  intros Hinit.
  destruct QLearningTrainer_init_cells as (self' & Hinit' & _ & _ & _ & Hcells).
  assert (self' = self) as -> by congruence.
  intros s a Hs Ha. eexists. split; [apply Hcells; assumption |].
  destruct (decide _); lra.
Qed.

Lemma update_q_table_keeps_bounds_witness :
  let self := mkTrainer [ [0.0; 0.0; 0.0; 0.0; 0.0]; [0.0; 0.0; 0.0; 0.0; 0.0];
                          [0.0; 0.0; 0.0; 0.0; 0.0]; [0.0; 0.0; 0.0; 0.0; 0.0];
                          [0.0; 0.0; 0.0; 0.0; 10.0]; [0.0; 0.0; 0.0; 0.0; 0.0];
                          [0.0; 0.0; 0.0; 0.0; 0.0]; [0.0; 0.0; 0.0; 0.0; 0.0];
                          [0.0; 0.0; 0.0; 0.0; 0.0] ] 0 0 in
  ∃ self',
    update_q_table self 4 4 5.9 1 = Some self' ∧
    Q_shape (Q_table self') ∧ Q_bounded (Q_table self').
Proof.
  intros self. apply (update_q_table_keeps_bounds self 4 4 5.9 1); try lia.
  - split; [reflexivity |].
    repeat (apply Forall_cons; split; [reflexivity |]). constructor.
  - apply Q_bounded_seeded, QLearningTrainer_init_eq.
  - split; lra.
Defined.

Lemma choose_action_cases (epsilon coin : R) (pick : Z) (q : list (list R))
    (s : Z) :
  Q_shape q → (0 <= s < 9)%Z → (0 <= pick < 5)%Z →
  ∃ a, choose_action epsilon coin pick q s = Some a ∧ (0 <= a < 5)%Z ∧
       (coin < epsilon → a = pick) ∧
       (epsilon <= coin → best_action q s = Some a).
Proof.
  intros Hq Hs Hp. unfold choose_action.
  destruct (Rlt_dec coin epsilon) as [Hlt | Hge].
  - exists pick. split_and!; [done | lia | lia | done |].
    intros ?. exfalso. lra.
  - destruct (best_action_is_Some q Hq s Hs) as (b & Hb & Hrange).
    exists b. unfold best_action in Hb. rewrite Hb.
    split_and!; [done | lia | lia | |].
    + intros ?. contradiction.
    + intros _. exact Hb.
Qed.

(** X21: on a well-shaped table, a state in [0, 9) and a random choice in
    [0, 5), [choose_action] returns an action in [0, 5): the random choice
    when the coin is below [EPSILON], the greedy action otherwise. *)
Theorem choose_action_valid (epsilon coin : R) (pick : Z) (q : list (list R))
    (s : Z) :
  Q_shape q → (0 <= s < 9)%Z → (0 <= pick < 5)%Z →
  ∃ a, choose_action epsilon coin pick q s = Some a ∧ (0 <= a < 5)%Z ∧
       (coin < epsilon → a = pick) ∧
       (epsilon <= coin → best_action q s = Some a).
Proof. apply choose_action_cases. Qed.

Lemma choose_action_valid_witness :
  let q := [ [0; 0; 0; 0; 0]; [0; 0; 0; 0; 0]; [0; 0; 0; 0; 0];
             [0; 0; 0; 0; 0]; [0; 0; 0; 0; 10]; [0; 0; 0; 0; 0];
             [0; 0; 0; 0; 0]; [0; 0; 0; 0; 0]; [0; 0; 0; 0; 0] ] in
  ∃ a, choose_action EPSILON 0.1 3 q 4 = Some a ∧ (0 <= a < 5)%Z ∧
       (0.1 < EPSILON → a = 3%Z) ∧
       (EPSILON <= 0.1 → best_action q 4 = Some a).
Proof.
  intros q. apply (choose_action_valid EPSILON 0.1 3 q 4); try lia.
  split; [reflexivity |].
  repeat (apply Forall_cons; split; [reflexivity |]). constructor.
Defined.

Lemma episode_safe_inv (epsilon : R) (k : nat) (st : loop_state)
    (d : episode_draws) :
  safe_inv k st → draws_in_range d →
  ∃ st', episode epsilon st d = Some st' ∧ safe_inv (S k) st'.
Proof.
  destruct st as [tr e sp ap]. unfold safe_inv. simpl.
  intros (Hq & Hb & Hc & Hp & Hprev) (_ & Hpick & _).
  pose proof (get_state_range (lux e) (temp e)) as Hsn.
  pose proof (clamp_range (unclamped_reward (lux e) (temp e) ap)) as Hr.
  change (Rmax _ _) with (calculate_reward (lux e) (temp e) ap) in Hr.
  assert (Hup : ∃ tr', update_q_table tr sp ap (calculate_reward (lux e) (temp e) ap)
                         (get_state (lux e) (temp e)) = Some tr'
                       ∧ Q_shape (Q_table tr') ∧ Q_bounded (Q_table tr')
                       ∧ (0 <= crucial_updates_count tr' <= Z.of_nat k)%Z
                       ∧ (0 <= policy_changes_count tr' <= Z.of_nat k)%Z).
  { destruct Hprev as [(-> & -> & ->) | (Hk & Hsp & Hap)].
    - exists tr. split; [reflexivity |]. simpl in Hc, Hp. done.
    - destruct (update_q_table_bounded tr sp ap _ _ Hq Hb Hsp Hap Hsn Hr)
        as (tr' & Hup & Hq' & Hb' & Hc' & Hp').
      exists tr'. split_and!; try assumption; lia. }
  destruct Hup as (tr' & Hup & Hq' & Hb' & Hc' & Hp').
  unfold ACTION_SPACE_SIZE in Hpick.
  destruct (choose_action_cases epsilon (coin d) (pick d) (Q_table tr')
              (get_state (lux e) (temp e)) Hq' Hsn Hpick)
    as (a_new & Hch & Hanew & _).
  eexists. split.
  { unfold episode. simpl. rewrite Hup. simpl. rewrite Hch. simpl. reflexivity. }
  simpl. split; [exact Hq' |]. split; [exact Hb' |].
  split; [lia |]. split; [lia |]. right. split_and!; lia.
Qed.

Lemma episodes_from_safe_inv (epsilon : R) (draws : list episode_draws) (k : nat)
    (st : loop_state) :
  safe_inv k st → Forall draws_in_range draws →
  ∃ st', episodes_from epsilon st draws = Some st' ∧
         safe_inv (k + length draws) st'.
Proof.
  revert k st. induction draws as [| d draws IH]; intros k st Hinv Hd.
  - exists st. split; [reflexivity |]. simpl. rewrite Nat.add_0_r. exact Hinv.
  - apply Forall_cons in Hd as [Hd Hds].
    destruct (episode_safe_inv epsilon k st d Hinv Hd) as (st1 & Hep & Hinv1).
    destruct (IH (S k) st1 Hinv1 Hds) as (st' & Hrun & Hinv').
    exists st'. split; [simpl; rewrite Hep; exact Hrun |].
    simpl length. rewrite Nat.add_succ_r. exact Hinv'.
Qed.

Lemma simulation_start_safe_inv :
  ∃ st0, simulation_start = Some st0 ∧ safe_inv 0 st0.
Proof.
  destruct QLearningTrainer_init_cells as (self & Hinit & Hq & Hc & Hp & _).
  eexists. split; [unfold simulation_start; rewrite Hinit; reflexivity |].
  unfold safe_inv. simpl. rewrite Hc, Hp.
  split; [exact Hq |]. split; [apply Q_bounded_seeded, Hinit |].
  split; [lia |]. split; [lia |]. left. done.
Qed.

(** X22: for every exploration rate and all random draws within their
    ranges, [run_simulation] returns without an error a 9 x 5 table whose
    cells lie in [-20, 40], and each counter is between 0 and the number
    of episodes minus one (the first iteration never updates). *)
Theorem run_simulation_safe (epsilon : R) (draws : list episode_draws) :
  Forall draws_in_range draws →
  ∃ q crucial changes,
    run_simulation epsilon draws = Some (q, crucial, changes) ∧
    Q_shape q ∧ Q_bounded q ∧
    (0 <= crucial <= Z.of_nat (pred (length draws)))%Z ∧
    (0 <= changes <= Z.of_nat (pred (length draws)))%Z.
Proof.
  intros Hd. destruct simulation_start_safe_inv as (st0 & Hst0 & Hinv0).
  destruct (episodes_from_safe_inv epsilon draws 0 st0 Hinv0 Hd)
    as (st & Hrun & Hq & Hb & Hc & Hp & _).
  exists (Q_table (trainer st)), (crucial_updates_count (trainer st)),
    (policy_changes_count (trainer st)).
  split; [unfold run_simulation; rewrite Hst0; simpl; rewrite Hrun; reflexivity |].
  simpl in Hc, Hp. done.
Qed.

Lemma run_simulation_safe_witness :
  ∃ q crucial changes,
    run_simulation EPSILON
      [mkEpisodeDraws 0.1 2 (mkStepDraws 0.01 1.0 1.0);
       mkEpisodeDraws 0.7 3 (mkStepDraws 0.05 0.8 1.1)]
    = Some (q, crucial, changes) ∧
    Q_shape q ∧ Q_bounded q ∧
    (0 <= crucial <= 1)%Z ∧ (0 <= changes <= 1)%Z.
Proof.
  apply (run_simulation_safe EPSILON
           [mkEpisodeDraws 0.1 2 (mkStepDraws 0.01 1.0 1.0);
            mkEpisodeDraws 0.7 3 (mkStepDraws 0.05 0.8 1.1)]).
  repeat (apply Forall_cons; split;
          [unfold draws_in_range, ACTION_SPACE_SIZE; simpl;
           repeat split; (lia || lra) |]).
  constructor.
Defined.

(** X23: in the greedy run ([EPSILON] = 0) the action taken in state 4 is
    always IDLE, so the four active cells of row 4 are never written and
    stay 0 while the IDLE cell stays positive. *)
Theorem greedy_run_never_acts_in_s4 (draws : list episode_draws) :
  Forall draws_in_range draws →
  ∃ st0 st,
    simulation_start = Some st0 ∧ episodes_from 0 st0 draws = Some st ∧
    (s_prev st = 4%Z → a_prev st = A_DO_NOTHING) ∧
    (∀ a, (0 <= a < 4)%Z → Q_get (Q_table (trainer st)) 4 a = Some 0) ∧
    (∃ x, Q_get (Q_table (trainer st)) 4 A_DO_NOTHING = Some x ∧ 0 < x).
Proof.
  intros Hd.
  destruct (greedy_run_loop_inv draws Hd) as (st0 & st & Hst0 & Hrun & Hinv).
  exists st0, st. split; [exact Hst0 |]. split; [exact Hrun |].
  destruct Hinv as ((_ & _ & Hz & Hx & _) & _ & Htrans).
  split; [| split; [exact Hz | exact Hx]].
  intros H4. destruct Htrans as [[Hs _] | (_ & _ & H & _)].
  - rewrite Hs in H4. discriminate.
  - apply H, H4.
Qed.

Lemma greedy_run_never_acts_in_s4_witness :
  ∃ st0 st,
    simulation_start = Some st0 ∧
    episodes_from 0 st0 [mkEpisodeDraws 0.5 0 (mkStepDraws 0.01 1.0 1.0)] = Some st ∧
    (s_prev st = 4%Z → a_prev st = A_DO_NOTHING) ∧
    (∀ a, (0 <= a < 4)%Z → Q_get (Q_table (trainer st)) 4 a = Some 0) ∧
    (∃ x, Q_get (Q_table (trainer st)) 4 A_DO_NOTHING = Some x ∧ 0 < x).
Proof.
  apply greedy_run_never_acts_in_s4.
  apply Forall_cons; split; [| constructor].
  unfold draws_in_range, ACTION_SPACE_SIZE; simpl. repeat split; (lia || lra).
Defined.

(** ** Verdict and report *)

Lemma ACTION_NAMES_idle (b : Z) :
  (0 <= b < 5)%Z →
  ∃ name, ACTION_NAMES !! Z.to_nat b = Some name ∧
          (name = "IDLE"%string ↔ b = A_DO_NOTHING).
Proof.
  intros Hb.
  assert (b = 0 ∨ b = 1 ∨ b = 2 ∨ b = 3 ∨ b = 4)%Z as Hcases by lia.
  destruct_or!; subst b; eexists; (split; [reflexivity |]);
    split; intros H; try discriminate H; reflexivity.
Qed.

(** X24: the success test of [generate_report] (on action names) and the
    one of [run_simulation] (on action indices) give the same verdict on
    every well-shaped table: success exactly when the greedy action of
    state 4 is IDLE. *)
Theorem report_success_agrees_with_banner (q : list (list R)) :
  Q_shape q →
  ∃ v, report_success q = Some v ∧ banner_success q = Some v ∧
       (v = true ↔ best_action q 4 = Some A_DO_NOTHING).
Proof.
  intros Hq.
  assert (Hall : ∀ s, (0 <= s < 9)%Z →
            ∃ b name, best_action q s = Some b ∧ (0 <= b < 5)%Z ∧
                      ACTION_NAMES !! Z.to_nat b = Some name ∧
                      (name = "IDLE"%string ↔ b = A_DO_NOTHING)).
  { intros s Hs. destruct (best_action_is_Some q Hq s Hs) as (b & Hb & Hr).
    destruct (ACTION_NAMES_idle b Hr) as (name & Hn & Hiff).
    exists b, name. done. }
  destruct (mapM_is_Some_2
              (λ s, best_action_index ← best_action q s;
                    ACTION_NAMES !! Z.to_nat best_action_index)
              (seqZ 0 STATE_SPACE_SIZE)) as [names Hnames].
  { apply Forall_forall. intros s Hs. apply elem_of_seqZ in Hs.
    destruct (Hall s) as (b & name & Hb & _ & Hn & _);
      [unfold STATE_SPACE_SIZE, LUX_BINS, TEMP_BINS in Hs; lia |].
    simpl. rewrite Hb. simpl. rewrite Hn. done. }
  destruct (Hall 4%Z ltac:(lia)) as (b & name & Hb & Hr & Hn & Hiff).
  pose proof (mapM_Some_1 _ _ _ Hnames) as HF.
  assert (H4 : names !! 4%nat = Some name).
  { assert (Hs4 : seqZ 0 STATE_SPACE_SIZE !! 4%nat = Some 4%Z) by reflexivity.
    destruct (Forall2_lookup_l _ _ _ _ _ HF Hs4) as (y & Hy & Hf).
    simpl in Hf. rewrite Hb in Hf. simpl in Hf. congruence. }
  exists (bool_decide (b = A_DO_NOTHING)). split_and!.
  - unfold report_success, report_best_actions. rewrite Hnames. simpl.
    rewrite H4. simpl. f_equal. apply bool_decide_ext. exact Hiff.
  - unfold banner_success. rewrite Hb. reflexivity.
  - rewrite Hb. rewrite bool_decide_eq_true. split; [intros ->; done | congruence].
Qed.

Lemma report_success_agrees_with_banner_witness :
  let q := [ [0; 0; 0; 0; 0]; [0; 0; 0; 0; 0]; [0; 0; 0; 0; 0];
             [0; 0; 0; 0; 0]; [0; 0; 0; 0; 10]; [0; 0; 0; 0; 0];
             [0; 0; 0; 0; 0]; [0; 0; 0; 0; 0]; [0; 0; 0; 0; 0] ] in
  ∃ v, report_success q = Some v ∧ banner_success q = Some v ∧
       (v = true ↔ best_action q 4 = Some A_DO_NOTHING).
Proof.
  intros q. apply report_success_agrees_with_banner.
  split; [reflexivity |].
  repeat (apply Forall_cons; split; [reflexivity |]). constructor.
Defined.

(** X25: the advice column of the report is decided by the lux bin first:
    states 0-2 get the LIGHT+ line and states 6-8 the LIGHT- line whatever
    their temp bin, only states 3 and 5 get a temperature line, state 4
    gets the IDLE line, and no state is left without advice. *)
Theorem implication_by_state :
  Forall (λ '(s, desc),
            implication s desc
            = (if decide (s = 4%Z) then
                 "Energy Conservation Policy: Must be IDLE for optimal result."
               else if decide (s < 3)%Z then "Requires LIGHT+ to meet Lux target."
               else if decide (5 < s)%Z then "Requires LIGHT- to meet Lux target."
               else if decide (s = 3%Z) then "Requires TEMP+ to reach Comfort Temp."
               else "Requires TEMP-")%string)
         state_descriptions.
Proof.
  repeat (apply Forall_cons; split; [vm_compute; reflexivity |]). constructor.
Qed.
